(** * Recuvia: the upload route handler and the text-search handler

    A shallow embedding of
    - [frontend/app/api/upload/route.ts] (the [POST] ingestion handler with
      its lazy model loading and its insert-with-retry loop), and
    - [frontend/app/main/page.tsx] ([handleTextSearch]),
    followed by the properties of the specification that concern them.

    JavaScript strings are lists of UTF-16 code units, the process-wide
    [processingStatus] object is a finite map keyed by item identifier, and
    every call that leaves the process (session lookup, storage, model,
    database, clock, timers, console) is answered by an explicit environment
    and recorded in a chronological trace. *)

From Stdlib Require Import ZArith NArith Strings.Ascii Strings.Byte PrimFloat Lia.
From stdpp Require Import base option list strings gmap pretty.

#[local] Open Scope Z_scope.
#[local] Open Scope list_scope.

(** ** JavaScript strings *)

Module JsString.

(** A string is its sequence of UTF-16 code units. *)
Abbreviation t := (list N) (only parsing).

(** An ASCII literal as code units. *)
Fixpoint lit (s : string) : t :=
  match s with
  | EmptyString => []
  | String c r => N_of_ascii c :: lit r
  end.

(** The decimal rendering a template literal gives a non-negative integer. *)
Definition of_nat (n : nat) : t := lit (pretty n).

(** [!s] on a string: only the empty string is falsy. *)
Definition truthy (s : t) : bool :=
  match s with [] => false | _ :: _ => true end.

(** ECMAScript WhiteSpace and LineTerminator code points: the characters
    matched by the regular expression class [\s] and stripped by
    [String.prototype.trim].  All of them lie in the basic plane. *)
Definition between (lo hi c : N) : bool := (N.leb lo c && N.leb c hi)%bool.

Definition is_space (c : N) : bool :=
  (between 0x0009 0x000D c        (* TAB, LF, VT, FF, CR *)
   || N.eqb c 0x0020              (* SPACE *)
   || N.eqb c 0x00A0              (* NO-BREAK SPACE *)
   || N.eqb c 0x1680              (* OGHAM SPACE MARK *)
   || between 0x2000 0x200A c     (* EN QUAD .. HAIR SPACE *)
   || between 0x2028 0x2029 c     (* LINE and PARAGRAPH SEPARATOR *)
   || N.eqb c 0x202F              (* NARROW NO-BREAK SPACE *)
   || N.eqb c 0x205F              (* MEDIUM MATHEMATICAL SPACE *)
   || N.eqb c 0x3000              (* IDEOGRAPHIC SPACE *)
   || N.eqb c 0xFEFF)%bool.       (* ZERO WIDTH NO-BREAK SPACE *)

Fixpoint trim_start (s : t) : t :=
  match s with
  | [] => []
  | c :: r => if is_space c then trim_start r else s
  end.

Definition trim_end (s : t) : t := rev (trim_start (rev s)).

(** [s.trim()] *)
Definition trim (s : t) : t := trim_end (trim_start s).

(** [s.replace(/\s/g, '_')] *)
Definition replace_spaces (s : t) : t :=
  map (fun c => if is_space c then N_of_ascii "_" else c) s.

Definition eqb (a b : t) : bool := bool_decide (a = b).

(** [s.startsWith(p)] *)
Fixpoint starts_with (p s : t) : bool :=
  match p, s with
  | [], _ => true
  | _ :: _, [] => false
  | a :: p', b :: s' => N.eqb a b && starts_with p' s'
  end.

(** [s.includes(p)]: [p] occurs somewhere in [s]. *)
Fixpoint includes (p s : t) : bool :=
  starts_with p s
  || match s with
     | [] => false
     | _ :: s' => includes p s'
     end.

End JsString.

Abbreviation jsstring := (list N) (only parsing).
Abbreviation js := JsString.lit.

(** ** Values that a [catch] clause can receive *)

(** What the handler observes of a caught value: whether it is an [Error]
    instance (then its [message]), whether it is an object carrying a string
    [code] property, its truthiness and what [String(error)] yields. *)
Inductive JsThrown : Type :=
| ThrownError (message : jsstring) (code : option jsstring)
    (* [error instanceof Error] *)
| ThrownObject (str : jsstring) (code : option jsstring)
    (* any other object; [str] is [String(error)] *)
| ThrownPrim (is_truthy : bool) (str : jsstring).
    (* a primitive ([null], [undefined], a string, a number, ...) *)

Definition thrown_truthy (e : JsThrown) : bool :=
  match e with ThrownPrim b _ => b | _ => true end.

(** [error instanceof Error ? error.message : String(error)] *)
Definition error_text (e : JsThrown) : jsstring :=
  match e with
  | ThrownError m _ => m
  | ThrownObject s _ => s
  | ThrownPrim _ s => s
  end.

(** [error && typeof error === 'object' && 'code' in error
     && error.code === '42501'] *)
Definition is_rls_violation (e : JsThrown) : bool :=
  match e with
  | ThrownError _ (Some c) | ThrownObject _ (Some c) => JsString.eqb c (js "42501")
  | _ => false
  end.

(** A value a database client rejects with, by what it is: an [Error]
    instance, or a plain object [{ message, code }].  Both have a
    [message]; a [catch] clause sees them as [caught] says, [String] of a
    plain object being the text [[object Object]]. *)
Inductive Rejection : Type :=
| RejectError (message : jsstring) (code : option jsstring)
| RejectObject (message : jsstring) (code : option jsstring).

Definition rejection_message (r : Rejection) : jsstring :=
  match r with RejectError m _ | RejectObject m _ => m end.

Definition caught (r : Rejection) : JsThrown :=
  match r with
  | RejectError m c => ThrownError m c
  | RejectObject _ c => ThrownObject (js "[object Object]") c
  end.

(** The outcome of evaluating something that may throw. *)
Inductive Completion (A : Type) : Type :=
| Normal (a : A)
| Throws (e : JsThrown).
Arguments Normal {A} a.
Arguments Throws {A} e.

(** ** The upload route: [frontend/app/api/upload/route.ts] *)

Module Upload.

(** *** Data *)

Record User := { user_id : jsstring; user_email : option jsstring }.
Record Session := { session_user : User }.
Record AuthError := { auth_error_message : jsstring }.
Record StorageError := { storage_error_message : jsstring }.
Record UrlData := { publicUrl : option jsstring }.

Record File := {
  file_name : jsstring;
  file_type : jsstring;
  file_bytes : list byte
}.

(** A multipart form: [FormData.get] yields a string, a [File] or [null]. *)
Inductive FormDataEntryValue : Type :=
| EntryString (s : jsstring)
| EntryFile (f : File).

Definition FormData := list (jsstring * FormDataEntryValue).

Fixpoint formData_get (name : jsstring) (fd : FormData)
  : option FormDataEntryValue :=
  match fd with
  | [] => None
  | (k, v) :: rest =>
      if JsString.eqb k name then Some v else formData_get name rest
  end.

(** Truthiness of what [formData.get] returned: [null] and the empty string
    are falsy, every object (so every [File], whatever its size) is truthy. *)
Definition truthy (v : option FormDataEntryValue) : bool :=
  match v with
  | None => false
  | Some (EntryString s) => JsString.truthy s
  | Some (EntryFile _) => true
  end.

(** The row handed to [insertItemWithEmbedding]. *)
Record ItemToInsert := {
  id : jsstring;
  title : FormDataEntryValue;
  description : FormDataEntryValue;
  location : FormDataEntryValue;
  url : jsstring;
  submitter_id : jsstring;
  embedding : list float
}.

Inductive StatusTag : Type := processing | complete | error.

Record ProcessingStatus := {
  status : StatusTag;
  message : jsstring;
  timestamp : Z
}.

(** The flat object literals given to [JSON.stringify]; the response body
    is the text of such an object. *)
Inductive JsonValue : Type :=
| JString (s : jsstring)
| JNumber (n : Z)
| JBool (b : bool).

Definition Json := list (string * JsonValue).

Record Response := {
  response_status : Z;
  response_headers : list (string * string);
  response_body : Json
}.

Definition json_response (code : Z) (body : Json) : Response :=
  {| response_status := code;
     response_headers := [("Content-Type", "application/json")%string];
     response_body := body |}.

Definition error_body (msg : jsstring) : Json :=
  [("error"%string, JString msg)].

(** *** Observable effects *)

Inductive Level : Type := console_log | console_warn | console_error.

(** One constructor per console call site of the handler. *)
Inductive LogLine : Type :=
| LogUploadApiCalled
| LogSessionRetrievalError (msg : jsstring)
| LogNoActiveSession
| LogSessionRetrieved (uid email : jsstring)
| LogStorageUploadError (e : StorageError)
| LogEmptyPublicUrl (file : jsstring)
| LogInitializingProcessor
| LogInitializingModel
| LogInsertAttempt (attempt : nat) (uid : jsstring)
| LogDataPayload (item : ItemToInsert)
| LogInsertSuccessful (item_id : jsstring)
| LogInsertAttemptFailed (attempt : nat) (e : JsThrown)
| LogRlsPolicyViolation
| LogRetrying (seconds : Z)
| LogUnhandledError (e : JsThrown).

Inductive Event : Type :=
| Console (lvl : Level) (line : LogLine)
| GetSession
| ReadFormData
| StorageUpload (bucket file : jsstring) (bytes : list byte)
| GetPublicUrl (bucket file : jsstring)
| ProcessorFromPretrained (model : jsstring)
| ModelFromPretrained (model : jsstring)
| RunEmbedding (bytes : list byte) (mime : jsstring)
| InsertItem (item : ItemToInsert)
| Sleep (ms : Z).

(** The answers of the outside world to one request. *)
Record Env := {
  env_now : nat -> Z;                       (* the k-th [Date.now()] *)
  env_getSession : Completion (option Session * option AuthError);
  env_formData : Completion FormData;
  env_uuidv4 : jsstring;
  env_upload : Completion (option StorageError);
  env_getPublicUrl : option UrlData;
  env_processor_from_pretrained : Completion unit;
  env_model_from_pretrained : Completion unit;
  env_image_embeds : Completion (list (list float));
    (* [RawImage.fromBlob], processor, vision model, [tolist()] *)
  env_insert : nat -> Completion unit
    (* [insertItemWithEmbedding] at the given attempt of the request *)
}.

(** Module-level state of the server process. *)
Record Process := {
  processingStatus : gmap (list N) ProcessingStatus;
  _processor : bool;                        (* [_processor !== null] *)
  _model : bool                             (* [_model !== null] *)
}.

(** The three [let] variables declared before the [try]. *)
Record Locals := { fileName : jsstring; itemId : jsstring; imageUrl : jsstring }.

(** The state of one run of the handler: the process it runs in, its
    locals, how often it has read the clock and what it has done so far. *)
Record State := {
  proc : Process;
  locals : Locals;
  clock_reads : nat;
  trace : list Event
}.

Definition with_proc (f : Process -> Process) (s : State) : State :=
  {| proc := f (proc s); locals := locals s;
     clock_reads := clock_reads s; trace := trace s |}.

Definition with_locals (f : Locals -> Locals) (s : State) : State :=
  {| proc := proc s; locals := f (locals s);
     clock_reads := clock_reads s; trace := trace s |}.

(** What a request amounts to, seen from outside. *)
Record Outcome := {
  response : option Response;
  final : Process;
  events : list Event
}.

(** *** A state-and-exception monad for the handler body *)

Definition M (A : Type) : Type := State -> Completion A * State.

Definition ret {A} (a : A) : M A := fun s => (Normal a, s).

Definition throw {A} (e : JsThrown) : M A := fun s => (Throws e, s).

Definition bind {A B} (m : M A) (k : A -> M B) : M B :=
  fun s =>
    match m s with
    | (Normal a, s') => k a s'
    | (Throws e, s') => (Throws e, s')
    end.

(** [try { m } catch (error) { h error }] *)
Definition try_catch {A} (m : M A) (h : JsThrown -> M A) : M A :=
  fun s =>
    match m s with
    | (Normal a, s') => (Normal a, s')
    | (Throws e, s') => h e s'
    end.

(** An awaited external call whose outcome the environment fixes. *)
Definition await {A} (c : Completion A) : M A := fun s => (c, s).

Definition gets {A} (f : State -> A) : M A := fun s => (Normal (f s), s).

Definition modify (f : State -> State) : M unit := fun s => (Normal tt, f s).

Notation "'let!' x ':=' m 'in' k" := (bind m (fun x => k))
  (at level 10, x pattern, m at level 100, k at level 200).
Notation "m ';;' k" := (bind m (fun _ => k))
  (at level 100, k at level 200, right associativity).

Definition emit (e : Event) : M unit :=
  modify (fun s =>
    {| proc := proc s; locals := locals s;
       clock_reads := clock_reads s; trace := trace s ++ [e] |}).

Definition console (lvl : Level) (line : LogLine) : M unit :=
  emit (Console lvl line).

(** [Date.now()] *)
Definition Date_now (env : Env) : M Z :=
  fun s =>
    (Normal (env_now env (clock_reads s)),
     {| proc := proc s; locals := locals s;
        clock_reads := S (clock_reads s); trace := trace s |}).

(** [processingStatus[key] = st] *)
Definition set_processingStatus (key : jsstring) (st : ProcessingStatus)
  : M unit :=
  modify (with_proc (fun p =>
    {| processingStatus := <[key := st]> (processingStatus p);
       _processor := _processor p;
       _model := _model p |})).

Definition set_fileName (v : jsstring) : M unit :=
  modify (with_locals (fun l =>
    {| fileName := v; itemId := itemId l; imageUrl := imageUrl l |})).

Definition set_itemId (v : jsstring) : M unit :=
  modify (with_locals (fun l =>
    {| fileName := fileName l; itemId := v; imageUrl := imageUrl l |})).

Definition set_imageUrl (v : jsstring) : M unit :=
  modify (with_locals (fun l =>
    {| fileName := fileName l; itemId := itemId l; imageUrl := v |})).

(** [new Error(msg)] *)
Definition Error (msg : jsstring) : JsThrown := ThrownError msg None.

Definition model_id : jsstring := js "Xenova/clip-vit-base-patch32".

(** [getProcessor]: load on first use, keep the handle afterwards. *)
Definition getProcessor (env : Env) : M unit :=
  let! loaded := gets (fun s => _processor (proc s)) in
  if loaded then ret tt
  else
    console console_log LogInitializingProcessor ;;
    emit (ProcessorFromPretrained model_id) ;;
    await (env_processor_from_pretrained env) ;;
    modify (with_proc (fun p =>
      {| processingStatus := processingStatus p;
         _processor := true;
         _model := _model p |})).

(** [getModel] *)
Definition getModel (env : Env) : M unit :=
  let! loaded := gets (fun s => _model (proc s)) in
  if loaded then ret tt
  else
    console console_log LogInitializingModel ;;
    emit (ModelFromPretrained model_id) ;;
    await (env_model_from_pretrained env) ;;
    modify (with_proc (fun p =>
      {| processingStatus := processingStatus p;
         _processor := _processor p;
         _model := true |})).

(** *** The handler *)

Section Handler.

(** [VECTOR_DIMENSION] is imported from [@/app/utils/supabase]. *)
Variable VECTOR_DIMENSION : nat.

Variable env : Env.

Definition maxRetries : nat := 3.

Definition status_processing (now : Z) : ProcessingStatus :=
  {| status := processing;
     message := js "Starting upload process";
     timestamp := now |}.

Definition status_complete (now : Z) : ProcessingStatus :=
  {| status := complete;
     message := js "Successfully processed and stored";
     timestamp := now |}.

(** [error instanceof Error ? error.message
     : String(error) || 'Unknown server error'] *)
Definition status_error_message (e : JsThrown) : jsstring :=
  match e with
  | ThrownError m _ => m
  | ThrownObject s _ | ThrownPrim _ s =>
      if JsString.truthy s then s else js "Unknown server error"
  end.

Definition status_error (e : JsThrown) (now : Z) : ProcessingStatus :=
  {| status := error;
     message := status_error_message e;
     timestamp := now |}.

Definition success_body (item_id image_url : jsstring) (elapsed : Z) : Json :=
  [("success", JBool true);
   ("itemId", JString item_id);
   ("imageUrl", JString image_url);
   ("processingTime", JNumber elapsed)]%string.

Definition dimension_mismatch (len : nat) : jsstring :=
  js "Generated embedding dimension (" ++ JsString.of_nat len
  ++ js ") does not match expected dimension ("
  ++ JsString.of_nat VECTOR_DIMENSION ++ js ")".

Definition insert_failed (msg : jsstring) : jsstring :=
  js "Failed database insert after " ++ JsString.of_nat maxRetries
  ++ js " attempts: " ++ msg.

(** [Math.pow(2, attempt) * 1000], in milliseconds *)
Definition retry_delay (attempt : nat) : Z := 2 ^ Z.of_nat attempt * 1000.

(** What one turn of the retry loop hands on: the [return] of the [try]
    block, or the error its [catch] stored in [lastError]. *)
Inductive Turn : Type :=
| Returned (r : Response)
| Failed (lastError : JsThrown).

(** The body of the [for] loop at a given [attempt]. *)
Definition insert_attempt (user : User)
    (title description location : FormDataEntryValue)
    (imageVector : list float) (startTime : Z) (attempt : nat) : M Turn :=
  try_catch
    (console console_log (LogInsertAttempt attempt (user_id user)) ;;
     let! item_id := gets (fun s => itemId (locals s)) in
     let! image_url := gets (fun s => imageUrl (locals s)) in
     let itemToInsert :=
       {| id := item_id;
          title := title;
          description := description;
          location := location;
          url := image_url;
          submitter_id := user_id user;
          embedding := imageVector |} in
     console console_log (LogDataPayload itemToInsert) ;;
     emit (InsertItem itemToInsert) ;;
     await (env_insert env attempt) ;;
     let! now := Date_now env in
     set_processingStatus item_id (status_complete now) ;;
     console console_log (LogInsertSuccessful item_id) ;;
     let! finished := Date_now env in
     ret (Returned (json_response 200
            (success_body item_id image_url (finished - startTime)))))
    (fun error =>
       console console_error (LogInsertAttemptFailed attempt error) ;;
       (if is_rls_violation error
        then console console_error LogRlsPolicyViolation
        else ret tt) ;;
       if Nat.eqb attempt maxRetries
       then throw (Error (insert_failed (error_text error)))
       else
         let delay := retry_delay attempt in
         console console_log (LogRetrying (delay / 1000)) ;;
         emit (Sleep delay) ;;
         ret (Failed error)).

(** [for (let attempt = 1; attempt <= maxRetries; attempt++) { ... }]
    followed by [if (lastError) throw lastError;].  [remaining] counts the
    turns left, [maxRetries + 1 - attempt]; [None] is the handler running
    off its end without a response. *)
Fixpoint insert_with_retry (user : User)
    (title description location : FormDataEntryValue)
    (imageVector : list float) (startTime : Z)
    (remaining attempt : nat) (lastError : option JsThrown)
  : M (option Response) :=
  match remaining with
  | O =>
      match lastError with
      | Some e => if thrown_truthy e then throw e else ret None
      | None => ret None
      end
  | S remaining' =>
      let! turn := insert_attempt user title description location
                     imageVector startTime attempt in
      match turn with
      | Returned r => ret (Some r)
      | Failed e =>
          insert_with_retry user title description location imageVector
            startTime remaining' (S attempt) (Some e)
      end
  end.

(** A required field as the validation sees it: [None] when [!field]. *)
Definition required (v : option FormDataEntryValue)
  : option FormDataEntryValue :=
  if truthy v then v else None.

(** [formData.get('description') as string || ''] *)
Definition description_or_empty (v : option FormDataEntryValue)
  : FormDataEntryValue :=
  match required v with Some d => d | None => EntryString [] end.

(** [urlData?.publicUrl || ""] *)
Definition public_url_or_empty (urlData : option UrlData) : jsstring :=
  match urlData with
  | Some d => match publicUrl d with Some u => u | None => [] end
  | None => []
  end.

Definition or_default (s d : jsstring) : jsstring :=
  if JsString.truthy s then s else d.

(** From the storage upload to the end of the [try] block. *)
Definition store_embed_insert (user : User)
    (title description location : FormDataEntryValue) (image : File)
    (item_id : jsstring) (startTime : Z) : M (option Response) :=
  let imageBuffer := file_bytes image in
  let file := item_id ++ js "-" ++ JsString.replace_spaces (file_name image) in
  set_fileName file ;;
  emit (StorageUpload (js "item-images") file imageBuffer) ;;
  let! uploadError := await (env_upload env) in
  match uploadError with
  | Some e =>
      console console_error (LogStorageUploadError e) ;;
      throw (Error (js "Storage upload error: " ++ storage_error_message e))
  | None =>
      emit (GetPublicUrl (js "item-images") file) ;;
      let image_url := public_url_or_empty (env_getPublicUrl env) in
      set_imageUrl image_url ;;
      if negb (JsString.truthy image_url)
      then
        console console_warn (LogEmptyPublicUrl file) ;;
        throw (Error (js "Failed to get public URL for uploaded image."))
      else
        getProcessor env ;;
        getModel env ;;
        emit (RunEmbedding imageBuffer
                (or_default (file_type image) (js "image/jpeg"))) ;;
        let! image_embeds := await (env_image_embeds env) in
        match image_embeds with
        | [] =>
            (* [tolist()[0]] is [undefined]; reading [.length] throws *)
            throw (Error (js "Cannot read properties of undefined (reading 'length')"))
        | imageVector :: _ =>
            if negb (Nat.eqb (length imageVector) VECTOR_DIMENSION)
            then throw (Error (dimension_mismatch (length imageVector)))
            else
              insert_with_retry user title description location
                imageVector startTime maxRetries 1 None
        end
  end.

(** The [try] block of [POST]. *)
Definition try_block : M (option Response) :=
  let! startTime := Date_now env in
  emit GetSession ;;
  let! (session, sessionError) := await (env_getSession env) in
  match sessionError with
  | Some err =>
      console console_error
        (LogSessionRetrievalError (auth_error_message err)) ;;
      ret (Some (json_response 500
             (error_body (js "Server error retrieving session: "
                          ++ auth_error_message err))))
  | None =>
  match session with
  | None =>
      console console_log LogNoActiveSession ;;
      ret (Some (json_response 401 (error_body (js "No active session"))))
  | Some sess =>
      let user := session_user sess in
      console console_log
        (LogSessionRetrieved (user_id user)
           (match user_email user with
            | Some e => or_default e (js "No email provided")
            | None => js "No email provided"
            end)) ;;
      emit ReadFormData ;;
      let! formData := await (env_formData env) in
      let description :=
        description_or_empty (formData_get (js "description") formData) in
      match required (formData_get (js "title") formData),
            required (formData_get (js "location") formData),
            required (formData_get (js "image") formData) with
      | Some title, Some location, Some image =>
          let item_id := env_uuidv4 env in
          set_itemId item_id ;;
          let! now := Date_now env in
          set_processingStatus item_id (status_processing now) ;;
          match image with
          | EntryFile f =>
              store_embed_insert user title description location f
                item_id startTime
          | EntryString _ =>
              (* [image.arrayBuffer] of a string is [undefined] *)
              throw (Error (js "image.arrayBuffer is not a function"))
          end
      | _, _, _ =>
          ret (Some (json_response 400
                 (error_body (js "Missing required fields"))))
      end
  end
  end.

(** The general [catch] block of [POST]. *)
Definition catch_block (error : JsThrown) : M (option Response) :=
  console console_error (LogUnhandledError error) ;;
  let! item_id := gets (fun s => itemId (locals s)) in
  (if JsString.truthy item_id
   then
     let! now := Date_now env in
     set_processingStatus item_id (status_error error now)
   else ret tt) ;;
  ret (Some (json_response 500
         (error_body (js "Upload failed: " ++ error_text error)))).

(** The state in which a request starts. *)
Definition initial (p : Process) : State :=
  {| proc := p;
     locals := {| fileName := []; itemId := []; imageUrl := [] |};
     clock_reads := 0;
     trace := [] |}.

(** [export async function POST(req)]: the response ([None] when the
    function ends without one), the process state the request leaves
    behind, and everything the request did, in order. *)
Definition POST (p : Process) : Outcome :=
  let '(c, s) := (console console_log LogUploadApiCalled ;;
                  try_catch try_block catch_block) (initial p) in
  {| response := match c with Normal r => r | Throws _ => None end;
     final := proc s;
     events := trace s |}.

End Handler.

(** How the promise of the exported function settles: with an answer, or
    rejected with what was thrown outside the [try]. *)
Inductive Settlement : Type :=
| Answered (o : Outcome)
| Rejected (e : JsThrown) (evs : list Event).

(** The exported function from its first line.  After the first console
    line and before the [try], line 74 runs
    [createRouteHandlerClient({ cookies })]; [client] is how that call
    ends.  When it throws nothing catches it and the promise rejects;
    otherwise the request goes on as [POST] describes. *)
Definition route_POST (client : Completion unit) (VECTOR_DIMENSION : nat)
    (env : Env) (p : Process) : Settlement :=
  match client with
  | Normal _ => Answered (POST VECTOR_DIMENSION env p)
  | Throws e => Rejected e [Console console_log LogUploadApiCalled]
  end.

(** *** Reading a trace *)

Definition is_console (e : Event) : bool :=
  match e with Console _ _ => true | _ => false end.

(** The calls to [insertItemWithEmbedding], in order. *)
Definition inserted (evs : list Event) : list ItemToInsert :=
  omap (fun e => match e with InsertItem i => Some i | _ => None end) evs.

(** The timer waits in milliseconds, in order. *)
Definition sleeps (evs : list Event) : list Z :=
  omap (fun e => match e with Sleep d => Some d | _ => None end) evs.

(** Insert attempts and the waits between them. *)
Definition persistence (evs : list Event) : list Event :=
  List.filter
    (fun e => match e with InsertItem _ | Sleep _ => true | _ => false end)
    evs.

(** Everything except console output. *)
Definition actions (evs : list Event) : list Event :=
  List.filter (fun e => negb (is_console e)) evs.

(** Storage upload, model loading and embedding computation, database
    insert. *)
Definition side_effect (e : Event) : bool :=
  match e with
  | StorageUpload _ _ _
  | ProcessorFromPretrained _ | ModelFromPretrained _ | RunEmbedding _ _
  | InsertItem _ => true
  | _ => false
  end.

(** Console lines that report a row-level-security rejection, and failed
    attempts whose error is one. *)
Definition rls_reports (evs : list Event) : nat :=
  length (List.filter
    (fun e => match e with
              | Console console_error LogRlsPolicyViolation => true
              | _ => false
              end) evs).

Definition rls_failures (evs : list Event) : nat :=
  length (List.filter
    (fun e => match e with
              | Console _ (LogInsertAttemptFailed _ err) => is_rls_violation err
              | _ => false
              end) evs).

(** The same error without its [code] property. *)
Definition forget_code (e : JsThrown) : JsThrown :=
  match e with
  | ThrownError m _ => ThrownError m None
  | ThrownObject s _ => ThrownObject s None
  | ThrownPrim b s => ThrownPrim b s
  end.

(** The same world, except that database errors carry no [code]. *)
Definition without_codes (env : Env) : Env :=
  {| env_now := env_now env;
     env_getSession := env_getSession env;
     env_formData := env_formData env;
     env_uuidv4 := env_uuidv4 env;
     env_upload := env_upload env;
     env_getPublicUrl := env_getPublicUrl env;
     env_processor_from_pretrained := env_processor_from_pretrained env;
     env_model_from_pretrained := env_model_from_pretrained env;
     env_image_embeds := env_image_embeds env;
     env_insert := fun k =>
       match env_insert env k with
       | Normal u => Normal u
       | Throws e => Throws (forget_code e)
       end |}.

(** The specification's reading of a required field that is "missing or
    empty": absent, the empty string, or a file of no bytes. *)
Definition missing_or_empty (v : option FormDataEntryValue) : bool :=
  match v with
  | None => true
  | Some (EntryString s) => negb (JsString.truthy s)
  | Some (EntryFile f) => match file_bytes f with [] => true | _ => false end
  end.

(** *** Requests by how far they get *)

(** What has happened when the form has just been read. *)
Definition up_to_form (user : User) : list Event :=
  [Console console_log LogUploadApiCalled;
   GetSession;
   Console console_log
     (LogSessionRetrieved (user_id user)
        match user_email user with
        | Some e => or_default e (js "No email provided")
        | None => js "No email provided"
        end);
   ReadFormData].

(** The name under which the image is stored. *)
Definition stored_name (env : Env) (image : File) : jsstring :=
  env_uuidv4 env ++ js "-" ++ JsString.replace_spaces (file_name image).

(** A request that passes authentication and validation and whose image
    the object store accepts. *)
Record Uploaded (env : Env) (sess : Session) (fd : FormData)
    (title location : FormDataEntryValue) (image : File) : Prop := {
  up_session : env_getSession env = Normal (Some sess, None);
  up_form : env_formData env = Normal fd;
  up_title : formData_get (js "title") fd = Some title;
  up_title_given : truthy (Some title) = true;
  up_location : formData_get (js "location") fd = Some location;
  up_location_given : truthy (Some location) = true;
  up_image : formData_get (js "image") fd = Some (EntryFile image);
  up_accepted : env_upload env = Normal None
}.

(** A request that moreover gets a public URL and an embedding: the model
    is loaded or loads, and the pipeline yields [vector] first. *)
Record Embedded (env : Env) (p : Process) (sess : Session) (fd : FormData)
    (title location : FormDataEntryValue) (image : File)
    (vector : list float) : Prop := {
  emb_uploaded : Uploaded env sess fd title location image;
  emb_url : JsString.truthy (public_url_or_empty (env_getPublicUrl env)) = true;
  emb_processor :
    _processor p = false -> env_processor_from_pretrained env = Normal tt;
  emb_model :
    _model p = false -> env_model_from_pretrained env = Normal tt;
  emb_vector : exists rest, env_image_embeds env = Normal (vector :: rest)
}.

(** The row such a request submits. *)
Definition row (env : Env) (sess : Session) (fd : FormData)
    (title location : FormDataEntryValue) (vector : list float)
  : ItemToInsert :=
  {| id := env_uuidv4 env;
     title := title;
     description := description_or_empty (formData_get (js "description") fd);
     location := location;
     url := public_url_or_empty (env_getPublicUrl env);
     submitter_id := user_id (session_user sess);
     embedding := vector |}.

(** Loading the processor and the model, where not yet loaded. *)
Definition loading (p : Process) : list Event :=
  (if _processor p then []
   else [Console console_log LogInitializingProcessor;
         ProcessorFromPretrained model_id])
  ++ (if _model p then []
      else [Console console_log LogInitializingModel;
            ModelFromPretrained model_id]).

(** The state in which such a request enters the retry loop. *)
Definition before_insert (env : Env) (p : Process) (sess : Session)
    (image : File) : State :=
  {| proc :=
       {| processingStatus :=
            <[env_uuidv4 env := status_processing (env_now env 1)]>
              (processingStatus p);
          _processor := true;
          _model := true |};
     locals :=
       {| fileName := stored_name env image;
          itemId := env_uuidv4 env;
          imageUrl := public_url_or_empty (env_getPublicUrl env) |};
     clock_reads := 2;
     trace :=
       up_to_form (session_user sess)
       ++ [StorageUpload (js "item-images") (stored_name env image)
             (file_bytes image);
           GetPublicUrl (js "item-images") (stored_name env image)]
       ++ loading p
       ++ [RunEmbedding (file_bytes image)
             (or_default (file_type image) (js "image/jpeg"))] |}.

(** The state in which the [try] block starts. *)
Definition entering (p : Process) : State :=
  {| proc := p;
     locals := {| fileName := []; itemId := []; imageUrl := [] |};
     clock_reads := 0;
     trace := [Console console_log LogUploadApiCalled] |}.

(** What [POST] makes of the completion of its [try ... catch]. *)
Definition respond (r : Completion (option Response) * State) : Outcome :=
  {| response := match fst r with Normal o => o | Throws _ => None end;
     final := proc (snd r);
     events := trace (snd r) |}.

(** [n] failed attempts, each followed by its wait, then one more attempt. *)
Definition schedule (item : ItemToInsert) (n : nat) : list Event :=
  flat_map (fun k => [InsertItem item; Sleep (retry_delay k)]) (seq 1 n)
  ++ [InsertItem item].

(** [s'] extends [s] by events whose inserted rows all carry [v]. *)
Definition inserts_only (v : list float) (s s' : State) : Prop :=
  exists evs, trace s' = trace s ++ evs
              /\ Forall (fun it => embedding it = v) (inserted evs).

(** Two runs that differ at most in what they wrote to the console; in the
    first every rejection seen so far has been reported, in the second none
    has. *)
Definition agree (s s' : State) : Prop :=
  proc s = proc s' /\ locals s = locals s' /\ clock_reads s = clock_reads s'
  /\ actions (trace s) = actions (trace s')
  /\ rls_reports (trace s) = rls_failures (trace s)
  /\ rls_reports (trace s') = 0%nat.

(** Completions that agree up to the [code] of a thrown error. *)
Definition related {A} (R : A -> A -> Prop) (c c' : Completion A) : Prop :=
  match c, c' with
  | Normal a, Normal a' => R a a'
  | Throws e, Throws e' => forget_code e = forget_code e'
  | _, _ => False
  end.

Definition same_turn (t t' : Turn) : Prop :=
  match t, t' with
  | Returned r, Returned r' => r = r'
  | Failed e, Failed e' => forget_code e = forget_code e'
  | _, _ => False
  end.

(** *** A concrete request, for examples *)

Module Sample.

Definition user : User :=
  {| user_id := js "user-7"; user_email := Some (js "finder@example.org") |}.

Definition photo (bytes : list byte) : File :=
  {| file_name := js "my keys.png";
     file_type := js "image/png";
     file_bytes := bytes |}.

Definition form (image : option FormDataEntryValue) : FormData :=
  [(js "title", EntryString (js "Keys"));
   (js "description", EntryString []);
   (js "location", EntryString (js "Library"))]
  ++ match image with Some i => [(js "image", i)] | None => [] end.

Definition vector : list float := [1%float; 2%float; 3%float].

(** A world in which everything up to the database works; [session],
    [image], the public URL and the database are left open. *)
Definition world (session : option Session * option AuthError)
    (image : option FormDataEntryValue) (public : option UrlData)
    (insert : nat -> Completion unit) : Env :=
  {| env_now := fun k => 1000 * Z.of_nat k;
     env_getSession := Normal session;
     env_formData := Normal (form image);
     env_uuidv4 := js "0b5e";
     env_upload := Normal None;
     env_getPublicUrl := public;
     env_processor_from_pretrained := Normal tt;
     env_model_from_pretrained := Normal tt;
     env_image_embeds := Normal [vector];
     env_insert := insert |}.

Definition signed_in : option Session * option AuthError :=
  (Some {| session_user := user |}, None).

Definition public_url : option UrlData :=
  Some {| publicUrl := Some (js "https://cdn.example.org/0b5e-my_keys.png") |}.

Definition rls_error : JsThrown :=
  ThrownObject (js "[object Object]") (Some (js "42501")).

Definition timeout_error : JsThrown :=
  ThrownError (js "connection timed out") None.

(** Database stubs. *)
Definition fails_twice (k : nat) : Completion unit :=
  if Nat.ltb k 3 then Throws timeout_error else Normal tt.

Definition always_fails (k : nat) : Completion unit :=
  Throws (if Nat.even k then timeout_error else rls_error).

Definition session_failure : AuthError :=
  {| auth_error_message := js "fetch failed" |}.

Definition fresh : Process :=
  {| processingStatus := ∅; _processor := false; _model := false |}.

Definition session : Session := {| session_user := user |}.

Definition one_byte : FormDataEntryValue := EntryFile (photo [x01]).

Definition no_bytes : FormDataEntryValue := EntryFile (photo []).

(** Signed in, a one-byte image, a public URL; the database is left open. *)
Definition ready (insert : nat -> Completion unit) : Env :=
  world signed_in (Some one_byte) public_url insert.

Definition alternating (k : nat) : JsThrown :=
  if Nat.even k then timeout_error else rls_error.

(** A database stub that fails with the same [Error] every time. *)
Definition times_out (k : nat) : Completion unit := Throws timeout_error.

(** What [always_fails] rejects with, by what the values are: an [Error]
    at the even attempts, a plain object with a message of its own at the
    odd ones. *)
Definition timed_out : Rejection :=
  RejectError (js "connection timed out") None.

Definition denied : Rejection :=
  RejectObject (js "new row violates row-level security policy")
    (Some (js "42501")).

Definition rejections (k : nat) : Rejection :=
  if Nat.even k then timed_out else denied.

End Sample.

End Upload.

(** ** The main page: [frontend/app/main/page.tsx], [handleTextSearch] *)

Module MainPage.

Record ItemImage := { image_url : jsstring }.
Record Profile := { email : jsstring }.

Record Item := {
  id : jsstring;
  title : jsstring;
  description : option jsstring;
  location : jsstring;
  created_at : option jsstring;
  profiles : option Profile;
  item_images : list ItemImage;
  score : option float
}.

Inductive SearchProgress : Type := idle | searching | complete | error.

(** The pieces of component state that the handler reads. *)
Record Component := {
  similarityThreshold : float;
  maxResults : jsstring;
  customMaxResults : jsstring;
  searchQuery : jsstring
}.

(** The object sent as the request body; an [undefined] [maxResults] is
    left out by [JSON.stringify]. *)
Record SearchRequest := {
  request_query : jsstring;
  request_threshold : float;
  request_maxResults : option float
}.

(** The parsed response body, as far as the handler looks at it. *)
Record SearchData := {
  data_items : option (list Item);
  data_error : option jsstring
}.

(** A rejected promise carries an [Error]; its message is kept. *)
Record FetchResponse := {
  response_ok : bool;
  response_json : jsstring + SearchData
}.

(** State setters and calls, in the order the handler makes them. *)
Inductive Effect : Type :=
| SetItems (items : list Item)
| SetLoading (b : bool)
| SetSearchProgress (p : SearchProgress)
| SetSearchStatusMessage (m : jsstring)
| Alert (m : jsstring)
| Fetch (url : jsstring) (body : SearchRequest)
| ConsoleError (m : jsstring).

(** How the [try] block ends. *)
Inductive TryEnd : Type :=
| FellThrough
| Returned
| Threw (msg : jsstring).

Section Handlers.

(** [Number(s)] on a string. *)
Variable Number : jsstring -> float.

(** The reply to [fetch('/api/search/text', ...)]: a rejection with its
    message, or a response. *)
Variable fetch : SearchRequest -> jsstring + FetchResponse.

(** [!customMaxResults || isNaN(Number(customMaxResults))
     || Number(customMaxResults) < 1] *)
Definition custom_invalid (custom : jsstring) : bool :=
  negb (JsString.truthy custom)
  || PrimFloat.is_nan (Number custom)
  || PrimFloat.ltb (Number custom) 1%float.

Definition or_default (s : option jsstring) (d : jsstring) : jsstring :=
  match s with
  | Some m => if JsString.truthy m then m else d
  | None => d
  end.

(** The [try] block of [handleTextSearch]. *)
Definition search_try (c : Component) : list Effect * TryEnd :=
  let is_custom := JsString.eqb (maxResults c) (js "custom") in
  if is_custom && custom_invalid (customMaxResults c)
  then
    ([Alert (js "Please enter a valid positive number for custom max results.");
      SetLoading false], Returned)
  else
    let maxResultsNum :=
      if is_custom then Some (Number (customMaxResults c))
      else if negb (JsString.eqb (maxResults c) (js "all"))
           then Some (Number (maxResults c))
           else None in
    let body := {| request_query := searchQuery c;
                   request_threshold := similarityThreshold c;
                   request_maxResults := maxResultsNum |} in
    let call := Fetch (js "/api/search/text") body in
    match fetch body with
    | inl msg => ([call], Threw msg)
    | inr resp =>
        match response_json resp with
        | inl msg => ([call], Threw msg)
        | inr data =>
            if negb (response_ok resp)
            then ([call], Threw (or_default (data_error data) (js "Search failed")))
            else
              let items := default [] (data_items data) in
              ([call;
                SetItems items;
                SetSearchProgress complete;
                SetSearchStatusMessage
                  (js "Found " ++ JsString.of_nat (length items) ++ js " items")],
               FellThrough)
        end
    end.

(** [catch (error) { ... }] *)
Definition search_catch (msg : jsstring) : list Effect :=
  [ConsoleError msg;
   SetItems [];
   SetSearchProgress error;
   SetSearchStatusMessage (js "Error: " ++ msg)].

(** [const handleTextSearch = async () => { ... }].  The [maxResultsNum]
    computed on its first line is shadowed inside the [try] and never read. *)
Definition handleTextSearch (c : Component) : list Effect :=
  if negb (JsString.truthy (JsString.trim (searchQuery c)))
  then [SetItems []]
  else
    [SetLoading true;
     SetSearchProgress searching;
     SetSearchStatusMessage (js "Searching for items...")]
    ++ (let '(done, how) := search_try c in
        done
        ++ match how with
           | Threw msg => search_catch msg
           | FellThrough | Returned => []
           end
        ++ [SetLoading false]).

Definition is_fetch (e : Effect) : bool :=
  match e with Fetch _ _ => true | _ => false end.

End Handlers.

(** *** A concrete page state, for examples *)

Module Sample.

(** A query of a space, a tab and an ideographic space. *)
Definition blank : Component :=
  {| similarityThreshold := 0.5%float;
     maxResults := js "20";
     customMaxResults := [];
     searchQuery := [0x20; 0x09; 0x3000]%N |}.

Definition keys : Component :=
  {| similarityThreshold := 0.5%float;
     maxResults := js "all";
     customMaxResults := [];
     searchQuery := js " keys " |}.

Definition Number (s : jsstring) : float :=
  if JsString.eqb s (js "20") then 20%float else PrimFloat.nan.

Definition unreachable (r : SearchRequest) : jsstring + FetchResponse :=
  inl (js "Failed to fetch").

End Sample.

End MainPage.

(** ** More ways to read an upload request *)

Module UploadTrace.

Import Upload.

(** The storage uploads of a run: bucket, object name, bytes. *)
Definition uploads (evs : list Event)
  : list (jsstring * jsstring * list byte) :=
  omap (fun e => match e with
                 | StorageUpload b f d => Some (b, f, d)
                 | _ => None
                 end) evs.

(** How often a run called [from_pretrained]. *)
Definition loads (evs : list Event) : nat :=
  length (List.filter
    (fun e => match e with
              | ProcessorFromPretrained _ | ModelFromPretrained _ => true
              | _ => false
              end) evs).

(** How often a run ran the embedding pipeline. *)
Definition embeddings (evs : list Event) : nat :=
  length (List.filter
    (fun e => match e with RunEmbedding _ _ => true | _ => false end) evs).

(** Milliseconds spent waiting. *)
Definition total_wait (evs : list Event) : Z := foldr Z.add 0 (sleeps evs).

(** A signed-in request whose form carries the three required fields. *)
Record Validated (env : Env) (sess : Session) (fd : FormData)
    (title location image : FormDataEntryValue) : Prop := {
  val_session : env_getSession env = Normal (Some sess, None);
  val_form : env_formData env = Normal fd;
  val_title : formData_get (js "title") fd = Some title;
  val_title_given : truthy (Some title) = true;
  val_location : formData_get (js "location") fd = Some location;
  val_location_given : truthy (Some location) = true;
  val_image : formData_get (js "image") fd = Some image;
  val_image_given : truthy (Some image) = true
}.

(** The answer to a request that failed after validation. *)
Definition failure (e : JsThrown) : option Response :=
  Some (json_response 500 (error_body (js "Upload failed: " ++ error_text e))).

(** The status codes of the answer, if any. *)
Definition status_of (o : Outcome) : option Z :=
  response_status <$> response o.

(** Database stubs that succeed at attempt [k] and fail before it. *)
Definition succeeds_at (k : nat) (e : JsThrown) (j : nat) : Completion unit :=
  if Nat.ltb j k then Throws e else Normal tt.

(** *** More concrete requests, for examples *)

Module Cases.

(** The sample request with one answer of the outside world replaced. *)
Definition base : Env := Sample.ready Sample.fails_twice.

Definition with_session
    (answer : Completion (option Session * option AuthError)) (e : Env) : Env :=
  {| env_now := env_now e;
     env_getSession := answer;
     env_formData := env_formData e;
     env_uuidv4 := env_uuidv4 e;
     env_upload := env_upload e;
     env_getPublicUrl := env_getPublicUrl e;
     env_processor_from_pretrained := env_processor_from_pretrained e;
     env_model_from_pretrained := env_model_from_pretrained e;
     env_image_embeds := env_image_embeds e;
     env_insert := env_insert e |}.

Definition with_form (answer : FormData) (e : Env) : Env :=
  {| env_now := env_now e;
     env_getSession := env_getSession e;
     env_formData := Normal answer;
     env_uuidv4 := env_uuidv4 e;
     env_upload := env_upload e;
     env_getPublicUrl := env_getPublicUrl e;
     env_processor_from_pretrained := env_processor_from_pretrained e;
     env_model_from_pretrained := env_model_from_pretrained e;
     env_image_embeds := env_image_embeds e;
     env_insert := env_insert e |}.

Definition with_upload (answer : Completion (option StorageError)) (e : Env)
  : Env :=
  {| env_now := env_now e;
     env_getSession := env_getSession e;
     env_formData := env_formData e;
     env_uuidv4 := env_uuidv4 e;
     env_upload := answer;
     env_getPublicUrl := env_getPublicUrl e;
     env_processor_from_pretrained := env_processor_from_pretrained e;
     env_model_from_pretrained := env_model_from_pretrained e;
     env_image_embeds := env_image_embeds e;
     env_insert := env_insert e |}.

Definition with_processor (answer : Completion unit) (e : Env) : Env :=
  {| env_now := env_now e;
     env_getSession := env_getSession e;
     env_formData := env_formData e;
     env_uuidv4 := env_uuidv4 e;
     env_upload := env_upload e;
     env_getPublicUrl := env_getPublicUrl e;
     env_processor_from_pretrained := answer;
     env_model_from_pretrained := env_model_from_pretrained e;
     env_image_embeds := env_image_embeds e;
     env_insert := env_insert e |}.

Definition bucket_missing : StorageError :=
  {| storage_error_message := js "Bucket not found" |}.

Definition out_of_memory : JsThrown := ThrownError (js "out of memory") None.

Definition network_down : JsThrown := ThrownError (js "fetch failed") None.

Definition text_image : FormDataEntryValue := EntryString (js "photo.png").

(** A process whose processor and model are loaded. *)
Definition loaded : Process :=
  {| processingStatus := ∅; _processor := true; _model := true |}.

End Cases.

End UploadTrace.

(** ** The main page: the other handlers of [frontend/app/main/page.tsx] *)

Module Page.

Import MainPage.

(** An awaited promise: fulfilled, or rejected with an [Error] whose
    message is kept. *)
Inductive Settled (A : Type) : Type :=
| Fulfilled (a : A)
| Rejected (msg : jsstring).
Arguments Fulfilled {A} a.
Arguments Rejected {A} msg.

Inductive UploadStatus : Type :=
| upload_idle | upload_uploading | upload_complete | upload_error.

(** The state setters of the component. *)
Inductive Setter : Type :=
| SetItems (items : list Item)
| SetLoading (b : bool)
| SetSearchLoading (b : bool)
| SetSearchProgress (p : SearchProgress)
| SetSearchStatusMessage (m : jsstring)
| SetSearchImage (f : option Upload.File)
| SetSearchImagePreview (u : option jsstring)
| SetActiveTab (t : jsstring)
| SetDeleting (b : bool)
| SetUploadStatus (s : UploadStatus)
| SetStatusMessage (m : jsstring)
| SetUploading (b : bool)
| SetTitle (s : jsstring)
| SetDescription (s : jsstring)
| SetLocation (s : jsstring)
| SetImageFile (f : option Upload.File)
| SetImagePreview (u : option jsstring).

(** The multipart form of an image search; [handleImageSearch] sends all
    three fields, [handleSearchWithItem] the image alone.  The threshold is
    sent as the text of the number. *)
Record ImageSearchForm := {
  form_image : Upload.File;
  form_threshold : option float;
  form_maxResults : option jsstring
}.

(** What a handler does, in order. *)
Inductive Act : Type :=
| Update (s : Setter)
| PreventDefault
| Alert (m : jsstring)
| Confirm (m : jsstring)
| ConsoleError (label m : jsstring)
| SetTimeout (ms : Z) (callback : list Setter)
| FetchUpload (form : Upload.FormData)
| FetchUrl (url : jsstring)
| FetchImageSearch (form : ImageSearchForm)
| FetchDelete (itemId : jsstring) (fileName : option jsstring)
| SignOut.

(** The component state the handlers read. *)
Record State := {
  title : jsstring;
  description : jsstring;
  location : jsstring;
  imageFile : option Upload.File;
  searchImage : option Upload.File;
  activeTab : jsstring;
  items : list Item;
  search : Component
}.

(** A response read as text. *)
Record TextReply := {
  reply_ok : bool;
  reply_status : nat;
  reply_text : Settled jsstring
}.

(** A response read as a blob. *)
Record BlobReply := {
  blob_ok : bool;
  blob_status : nat;
  blob_bytes : Settled (list byte)
}.

(** The reply of the delete endpoint, parsed: its [error] member. *)
Record DeleteReply := {
  delete_ok : bool;
  delete_json : Settled (option jsstring)
}.

(** [JSON.parse] of a search reply: a syntax error, [null], or a value with
    its [items] member. *)
Inductive ParsedItems : Type :=
| ParseFails
| ParsedNull
| ParsedValue (items : option (list Item)).

(** *** A writer with early exit for the [try] blocks *)

(** How a block ends: it runs to its end, [return]s, or [throw]s. *)
Inductive Exit (A : Type) : Type :=
| Value (a : A)
| Return
| Raise (msg : jsstring).
Arguments Value {A} a.
Arguments Return {A}.
Arguments Raise {A} msg.

Definition W (A : Type) : Type := list Act * Exit A.

Definition pure {A} (a : A) : W A := ([], Value a).
Definition raise {A} (msg : jsstring) : W A := ([], Raise msg).
Definition leave {A} : W A := ([], Return).
Definition emit (a : Act) : W unit := ([a], Value tt).
Definition update (s : Setter) : W unit := emit (Update s).

Definition bind {A B} (m : W A) (k : A -> W B) : W B :=
  match m with
  | (done, Value a) => let '(more, e) := k a in (done ++ more, e)
  | (done, Return) => (done, Return)
  | (done, Raise msg) => (done, Raise msg)
  end.

Definition await {A} (p : Settled A) : W A :=
  match p with
  | Fulfilled a => pure a
  | Rejected msg => raise msg
  end.

Notation "'let!' x ':=' m 'in' k" := (bind m (fun x => k))
  (at level 10, x pattern, m at level 100, k at level 200).
Notation "m ';;' k" := (bind m (fun _ => k))
  (at level 100, k at level 200, right associativity).

(** [try { body } catch (error) { handler } finally { cleanup }] *)
Definition try_catch_finally (body : W unit) (handler : jsstring -> list Act)
    (cleanup : list Act) : list Act :=
  let '(done, e) := body in
  done
  ++ match e with Raise msg => handler msg | Value _ | Return => [] end
  ++ cleanup.

Definition of_N (n : N) : jsstring := js (pretty n).

(** [s || d] on an optional string *)
Definition or_else (s : option jsstring) (d : jsstring) : jsstring :=
  match s with
  | Some m => if JsString.truthy m then m else d
  | None => d
  end.

(** [url.split('/')]: the pieces between occurrences of the separator. *)
Fixpoint split_on (sep : N) (s : list N) : list (list N) :=
  match s with
  | [] => [[]]
  | c :: r =>
      if N.eqb c sep then [] :: split_on sep r
      else match split_on sep r with
           | piece :: pieces => (c :: piece) :: pieces
           | [] => [[c]]
           end
  end.

Definition slash : N := 47.

(** [url.split('/').pop()] *)
Definition last_segment (url : jsstring) : option jsstring :=
  last (split_on slash url).

Section Handlers.

(** [Number(s)] on a string. *)
Variable Number : jsstring -> float.

(** *** [handleSubmit] *)

(** [JSON.parse(text)] of the upload reply: [None] for a syntax error,
    otherwise the [error] member of the value ([result?.error]). *)
Variable parse_upload : jsstring -> option (option jsstring).

Variable fetch_upload : Upload.FormData -> Settled TextReply.

Definition upload_form (st : State) (file : Upload.File) : Upload.FormData :=
  [(js "title", Upload.EntryString (title st));
   (js "description", Upload.EntryString (description st));
   (js "location", Upload.EntryString (location st));
   (js "image", Upload.EntryFile file)].

(** The [try] block of [handleSubmit]. *)
Definition submit_try (st : State) (file : Upload.File) : W unit :=
  let form := upload_form st file in
  emit (FetchUpload form) ;;
  let! response := await (fetch_upload form) in
  let! text := await (reply_text response) in
  let! result :=
    if JsString.truthy text && JsString.truthy (JsString.trim text)
    then
      match parse_upload text with
      | Some result => pure result
      | None =>
          raise (js "Invalid response format: " ++ firstn 100 text ++ js "...")
      end
    else
      raise (js "Server returned empty response with status: "
             ++ JsString.of_nat (reply_status response)) in
  if negb (reply_ok response)
  then
    raise (or_else result
             (js "Upload failed with status: "
              ++ JsString.of_nat (reply_status response)))
  else
    update (SetUploadStatus upload_complete) ;;
    update (SetStatusMessage (js "Item uploaded successfully!")) ;;
    update (SetTitle []) ;;
    update (SetDescription []) ;;
    update (SetLocation []) ;;
    update (SetImageFile None) ;;
    update (SetImagePreview None) ;;
    emit (SetTimeout 5000 [SetUploadStatus upload_idle; SetStatusMessage []]).

Definition submit_catch (msg : jsstring) : list Act :=
  [ConsoleError (js "Error uploading item:") msg;
   Update (SetUploadStatus upload_error);
   Update (SetStatusMessage (js "Error: " ++ msg))].

(** [const handleSubmit = async (e) => { ... }] *)
Definition handleSubmit (st : State) : list Act :=
  PreventDefault ::
  match imageFile st with
  | None => [Alert (js "Please select an image")]
  | Some file =>
      if negb (JsString.truthy (JsString.trim (title st)))
      then [Alert (js "Please enter a title")]
      else if negb (JsString.truthy (JsString.trim (location st)))
      then [Alert (js "Please enter a location")]
      else
        [Update (SetUploadStatus upload_uploading);
         Update (SetStatusMessage (js "Uploading your found item..."));
         Update (SetUploading true)]
        ++ try_catch_finally (submit_try st file) submit_catch
             [Update (SetUploading false)]
  end.

(** *** [handleImageSearch] *)

Variable fetch_search : ImageSearchForm -> Settled FetchResponse.

(** [response.json()] of a search reply, as [handleTextSearch] reads it. *)
Definition search_json (r : FetchResponse) : Settled SearchData :=
  match response_json r with
  | inl msg => Rejected msg
  | inr data => Fulfilled data
  end.

(** The [try] block of [handleImageSearch]. *)
Definition image_search_try (st : State) (image : Upload.File) : W unit :=
  let is_custom := JsString.eqb (maxResults (search st)) (js "custom") in
  (if is_custom && custom_invalid Number (customMaxResults (search st))
   then
     emit (Alert (js "Please enter a valid positive number for custom max results.")) ;;
     update (SetSearchLoading false) ;;
     update (SetLoading false) ;;
     leave
   else pure tt) ;;
  let form :=
    {| form_image := image;
       form_threshold := Some (similarityThreshold (search st));
       form_maxResults :=
         Some (if is_custom then customMaxResults (search st)
               else maxResults (search st)) |} in
  emit (FetchImageSearch form) ;;
  let! response := await (fetch_search form) in
  let! data := await (search_json response) in
  if negb (response_ok response)
  then raise (or_else (data_error data) (js "Search failed"))
  else
    let found := default [] (data_items data) in
    update (SetItems found) ;;
    update (SetSearchProgress complete) ;;
    update (SetSearchStatusMessage
              (js "Found " ++ JsString.of_nat (length found) ++ js " items")).

Definition image_search_catch (msg : jsstring) : list Act :=
  [ConsoleError (js "Error searching by image:") msg;
   Update (SetItems []);
   Update (SetSearchProgress error);
   Update (SetSearchStatusMessage (js "Error: " ++ msg))].

(** [const handleImageSearch = async () => { ... }]; the [maxResultsNum] of
    its first line is never read. *)
Definition handleImageSearch (st : State) : list Act :=
  match searchImage st with
  | None => []
  | Some image =>
      [Update (SetSearchLoading true);
       Update (SetLoading true);
       Update (SetSearchProgress searching);
       Update (SetSearchStatusMessage (js "Processing image search..."))]
      ++ try_catch_finally (image_search_try st image) image_search_catch
           [Update (SetSearchLoading false); Update (SetLoading false)]
  end.

(** *** [handleSearchWithItem] *)

Variable fetch_url : jsstring -> Settled BlobReply.
Variable Date_now : N.
Variable fetch_similar : ImageSearchForm -> Settled TextReply.
Variable parse_items : jsstring -> ParsedItems.

(** The [try] block of [handleSearchWithItem]. *)
Definition similar_try (st : State) (imageUrl : jsstring) : W unit :=
  emit (FetchUrl imageUrl) ;;
  let! imageResponse := await (fetch_url imageUrl) in
  (if negb (blob_ok imageResponse)
   then raise (js "Failed to fetch image: "
               ++ JsString.of_nat (blob_status imageResponse))
   else pure tt) ;;
  let! imageBlob := await (blob_bytes imageResponse) in
  let file :=
    {| Upload.file_name := js "search-" ++ of_N Date_now ++ js ".jpg";
       Upload.file_type := js "image/jpeg";
       Upload.file_bytes := imageBlob |} in
  update (SetSearchImage (Some file)) ;;
  update (SetSearchImagePreview (Some imageUrl)) ;;
  let form := {| form_image := file;
                 form_threshold := None;
                 form_maxResults := None |} in
  emit (FetchImageSearch form) ;;
  let! response := await (fetch_similar form) in
  let! text := await (reply_text response) in
  (if negb (reply_ok response)
   then raise (js "Search API error: "
               ++ JsString.of_nat (reply_status response) ++ js " - " ++ text)
   else pure tt) ;;
  (if negb (JsString.truthy text)
   then
     update (SetItems []) ;;
     update (SetSearchProgress error) ;;
     update (SetSearchStatusMessage (js "Error: Empty response from server")) ;;
     leave
   else pure tt) ;;
  let! data :=
    match parse_items text with
    | ParseFails => raise (js "Failed to parse response as JSON: " ++ text)
    | ParsedNull =>
        (* [data.items] of [null] *)
        raise (js "Cannot read properties of null (reading 'items')")
    | ParsedValue found => pure found
    end in
  let found := default [] data in
  update (SetItems found) ;;
  update (SetSearchProgress complete) ;;
  update (SetSearchStatusMessage
            (js "Found " ++ JsString.of_nat (length found)
             ++ js " similar items")) ;;
  if negb (JsString.eqb (activeTab st) (js "lost"))
  then update (SetActiveTab (js "lost"))
  else pure tt.

Definition similar_catch (msg : jsstring) : list Act :=
  [ConsoleError (js "Error searching by existing image:") msg;
   Alert (js "Error searching with this image: " ++ msg);
   Update (SetItems []);
   Update (SetSearchProgress error);
   Update (SetSearchStatusMessage (js "Error: " ++ msg))].

(** [const handleSearchWithItem = async (imageUrl, title) => { ... }] *)
Definition handleSearchWithItem (st : State) (imageUrl name : jsstring)
  : list Act :=
  [Update (SetLoading true);
   Update (SetSearchProgress searching);
   Update (SetSearchStatusMessage
             (js "Finding items similar to " ++ [34%N] ++ name ++ [34%N]
              ++ js "..."))]
  ++ try_catch_finally (similar_try st imageUrl) similar_catch
       [Update (SetLoading false)].

(** *** [handleDeleteItem] *)

Variable confirm : bool.
Variable fetch_delete : jsstring -> option jsstring -> Settled DeleteReply.

(** [items.filter(i => i.id !== item.id)] *)
Definition without (key : jsstring) (l : list Item) : list Item :=
  List.filter (fun i => negb (JsString.eqb (id i) key)) l.

(** The [try] block of [handleDeleteItem]. *)
Definition delete_try (st : State) (item : Item) : W unit :=
  let! url :=
    match item_images item with
    | first :: _ => pure (image_url first)
    | [] =>
        (* [item.item_images[0]] is [undefined] *)
        raise (js "Cannot read properties of undefined (reading 'image_url')")
    end in
  let fileName := last_segment url in
  emit (FetchDelete (id item) fileName) ;;
  let! response := await (fetch_delete (id item) fileName) in
  let! result := await (delete_json response) in
  if negb (delete_ok response)
  then raise (or_else result (js "Failed to delete item"))
  else
    update (SetItems (without (id item) (items st))) ;;
    emit (Alert (js "Item deleted successfully!")).

Definition delete_catch (msg : jsstring) : list Act :=
  [ConsoleError (js "Error deleting item:") msg;
   Alert (js "Error deleting item: " ++ msg)].

(** [const handleDeleteItem = async (item) => { ... }] *)
Definition handleDeleteItem (st : State) (item : Item) : list Act :=
  Confirm (js "Are you sure you want to delete this item?") ::
  if negb confirm then []
  else
    Update (SetDeleting true)
    :: try_catch_finally (delete_try st item) delete_catch
         [Update (SetDeleting false)].

End Handlers.

(** *** Reading what a handler did *)

Definition is_request (a : Act) : bool :=
  match a with
  | FetchUpload _ | FetchUrl _ | FetchImageSearch _ | FetchDelete _ _ => true
  | _ => false
  end.

Definition requests (acts : list Act) : list Act := List.filter is_request acts.

(** The forms posted to the upload endpoint. *)
Definition posted (acts : list Act) : list Upload.FormData :=
  omap (fun a => match a with FetchUpload f => Some f | _ => None end) acts.

(** The item lists the handler stored. *)
Definition stored_items (acts : list Act) : list (list Item) :=
  omap (fun a => match a with Update (SetItems l) => Some l | _ => None end)
       acts.

(** Whether the handler wrote to one of the upload form's fields. *)
Definition clears_form (a : Act) : bool :=
  match a with
  | Update (SetTitle _) | Update (SetDescription _) | Update (SetLocation _)
  | Update (SetImageFile _) | Update (SetImagePreview _) => true
  | _ => false
  end.

Definition is_alert (a : Act) : bool :=
  match a with Alert _ => true | _ => false end.

(** The upload states the handler went through. *)
Definition statuses (acts : list Act) : list UploadStatus :=
  omap (fun a => match a with
                 | Update (SetUploadStatus u) => Some u
                 | _ => None
                 end) acts.

(** The search states the handler went through. *)
Definition progress (acts : list Act) : list SearchProgress :=
  omap (fun a => match a with
                 | Update (SetSearchProgress p) => Some p
                 | _ => None
                 end) acts.

(** The same for [handleTextSearch]. *)
Definition text_progress (effects : list Effect) : list SearchProgress :=
  omap (fun e => match e with
                 | MainPage.SetSearchProgress p => Some p
                 | _ => None
                 end) effects.

(** The delete requests: item and object name. *)
Definition deletions (acts : list Act) : list (jsstring * option jsstring) :=
  omap (fun a => match a with
                 | FetchDelete i f => Some (i, f)
                 | _ => None
                 end) acts.

(** The image-search forms posted. *)
Definition searched (acts : list Act) : list ImageSearchForm :=
  omap (fun a => match a with FetchImageSearch f => Some f | _ => None end)
       acts.

(** *** A concrete page, for examples *)

Module Sample.

Definition photo : Upload.File := Upload.Sample.photo [x01].

Definition filled : State :=
  {| title := js " Keys ";
     description := [];
     location := js "Library";
     imageFile := Some photo;
     searchImage := Some photo;
     activeTab := js "found";
     items := [];
     search := MainPage.Sample.keys |}.

Definition untitled : State :=
  {| title := js "  ";
     description := [];
     location := js "Library";
     imageFile := Some photo;
     searchImage := None;
     activeTab := js "lost";
     items := [];
     search := MainPage.Sample.keys |}.

Definition item (key : string) (images : list ItemImage) : Item :=
  {| id := js key;
     MainPage.title := js "Keys";
     MainPage.description := None;
     MainPage.location := js "Library";
     created_at := None;
     profiles := None;
     item_images := images;
     score := None |}.

Definition stored : ItemImage :=
  {| image_url := js "https://cdn.example.org/item-images/0b5e-my_keys.png" |}.

Definition listing : State :=
  {| title := [];
     description := [];
     location := [];
     imageFile := None;
     searchImage := None;
     activeTab := js "lost";
     items := [item "a" [stored]; item "b" []; item "a" []; item "c" [stored]];
     search := MainPage.Sample.keys |}.

Definition offline {A B} (_ : A) : Settled B := Rejected (js "Failed to fetch").

Definition parse_none (_ : jsstring) : option (option jsstring) := None.

Definition accepted (_ : Upload.FormData) : Settled TextReply :=
  Fulfilled {| reply_ok := true; reply_status := 200;
               reply_text := Fulfilled (js "{}") |}.

Definition parse_object (_ : jsstring) : option (option jsstring) := Some None.

Definition deleted (_ : jsstring) (_ : option jsstring) : Settled DeleteReply :=
  Fulfilled {| delete_ok := true; delete_json := Fulfilled None |}.

Definition refused (_ : jsstring) (_ : option jsstring) : Settled DeleteReply :=
  Fulfilled {| delete_ok := false;
               delete_json := Fulfilled (Some (js "Not authorized")) |}.

Definition missing_image (_ : jsstring) : Settled BlobReply :=
  Fulfilled {| blob_ok := false; blob_status := 404;
               blob_bytes := Fulfilled [] |}.

Definition empty_reply (_ : ImageSearchForm) : Settled TextReply :=
  Fulfilled {| reply_ok := true; reply_status := 200;
               reply_text := Fulfilled [] |}.

Definition found_image (_ : jsstring) : Settled BlobReply :=
  Fulfilled {| blob_ok := true; blob_status := 200;
               blob_bytes := Fulfilled [x01] |}.

Definition parse_empty (_ : jsstring) : ParsedItems := ParsedValue None.

End Sample.

End Page.

(** ** The sign-in page: [frontend/app/auth/signin/page.tsx] *)

Module SignIn.

Inductive Act : Type :=
| PreventDefault
| SetLoading (b : bool)
| SetError (m : option jsstring)
| SignInWithPassword (email password : jsstring)
| SignInWithOAuth (provider redirectTo : jsstring)
| RouterPush (path : jsstring)
| RouterRefresh
| RouterReplace (path : jsstring)
| ConsoleError (label : jsstring) (e : JsThrown).

(** What the [try] block throws, if anything: the [error] member of the
    result when it is truthy, or what the call itself threw. *)
Definition thrown (result : Completion (option JsThrown)) : option JsThrown :=
  match result with
  | Normal (Some err) => if thrown_truthy err then Some err else None
  | Normal None => None
  | Throws e => Some e
  end.

(** [error instanceof Error ? error.message : fallback] *)
Definition shown (e : JsThrown) (fallback : jsstring) : jsstring :=
  match e with
  | ThrownError m _ => m
  | _ => fallback
  end.

(** [const handleSignIn = async (e) => { ... }] *)
Definition handleSignIn (email password : jsstring)
    (result : Completion (option JsThrown)) : list Act :=
  [PreventDefault; SetLoading true; SetError None;
   SignInWithPassword email password]
  ++ match thrown result with
     | None => [RouterPush (js "/main"); RouterRefresh]
     | Some e =>
         [ConsoleError (js "Error signing in:") e;
          SetError (Some (shown e (js "An error occurred during sign in")))]
     end
  ++ [SetLoading false]
  ++ [RouterReplace (js "/")].

(** [const handleGoogleSignIn = async () => { ... }] *)
Definition handleGoogleSignIn (origin : jsstring)
    (result : Completion (option JsThrown)) : list Act :=
  SignInWithOAuth (js "google") (origin ++ js "/auth/callback")
  :: match thrown result with
     | None => []
     | Some e => [SetError (Some (shown e (js "An error occurred")))]
     end.

(** Where the router is after a list of actions, starting from [path]. *)
Definition lands (path : jsstring) (acts : list Act) : jsstring :=
  foldl (fun at_ a =>
           match a with
           | RouterPush p | RouterReplace p => p
           | _ => at_
           end) path acts.

(** The error the page shows after a list of actions. *)
Definition error_shown (before : option jsstring) (acts : list Act)
  : option jsstring :=
  foldl (fun err a => match a with SetError m => m | _ => err end) before acts.

(** The loading flag after a list of actions. *)
Definition loading_after (before : bool) (acts : list Act) : bool :=
  foldl (fun l a => match a with SetLoading b => b | _ => l end) before acts.

Definition bad_password : JsThrown :=
  ThrownError (js "Invalid login credentials") None.

End SignIn.

(** * Properties of the upload route *)

Module UploadProps.

Import Upload.

#[local] Arguments JsString.lit : simpl never.
#[local] Arguments JsString.of_nat : simpl never.

(** Unfold the handler down to its monadic primitives. *)
Ltac open_handler :=
  unfold POST, try_catch, try_block, catch_block, store_embed_insert,
    insert_attempt, getProcessor, getModel, required, bind, try_catch.

(** Walk every path of the handler: simplify, then split on the innermost
    undecided scrutinee. *)
Ltac explore :=
  repeat (cbn; try unfold insert_attempt, try_catch, bind;
    match goal with
    | |- context [match ?x with _ => _ end] =>
        lazymatch x with
        | context [match _ with _ => _ end] => fail
        | _ => destruct x eqn:?
        end
    end).

Section EarlyExits.

Variable VECTOR_DIMENSION : nat.
Variable env : Env.

(** C5: when the session lookup reports no error and no session, the
    handler answers 401 with a JSON error body; the process state is
    untouched (no processing-status entry) and the only things done are
    two console lines and the session lookup itself: no storage upload
    and no database write. *)
Theorem no_session_is_401 (p : Process) :
  env_getSession env = Normal (None, None) ->
  POST VECTOR_DIMENSION env p =
    {| response :=
         Some (json_response 401 (error_body (js "No active session")));
       final := p;
       events := [Console console_log LogUploadApiCalled;
                  GetSession;
                  Console console_log LogNoActiveSession] |}.
Proof.
  intros Hsession. open_handler. cbn. rewrite Hsession. cbn.
  now destruct p.
Qed.

(** C10: when the session lookup itself reports an error, the handler
    answers 500 (not 401) with a JSON error body naming that error,
    whatever session came with it; the process state is untouched and
    nothing but the lookup and two console lines has happened. *)
Theorem session_error_is_500 (p : Process) (session : option Session)
    (err : AuthError) :
  env_getSession env = Normal (session, Some err) ->
  POST VECTOR_DIMENSION env p =
    {| response :=
         Some (json_response 500
                 (error_body (js "Server error retrieving session: "
                              ++ auth_error_message err)));
       final := p;
       events := [Console console_log LogUploadApiCalled;
                  GetSession;
                  Console console_error
                    (LogSessionRetrievalError (auth_error_message err))] |}.
Proof.
  intros Hsession. open_handler. cbn. rewrite Hsession. cbn.
  now destruct p.
Qed.

(** X2: a rejected session lookup is caught by the general handler: 500,
    and no status entry since no identifier exists yet. *)
Lemma session_rejection_is_500 (p : Process) (e : JsThrown) :
  env_getSession env = Throws e ->
  POST VECTOR_DIMENSION env p =
    {| response :=
         Some (json_response 500
                 (error_body (js "Upload failed: " ++ error_text e)));
       final := p;
       events := [Console console_log LogUploadApiCalled;
                  GetSession;
                  Console console_error (LogUnhandledError e)] |}.
Proof.
  intros Hsession. open_handler. cbn. rewrite Hsession. cbn.
  now destruct p.
Qed.

(** C4, as the code has it: for an authenticated request whose title,
    location or image is falsy (absent from the form, or the empty
    string), the handler answers 400 with a JSON error body; the process
    state is untouched and nothing has happened beyond the session
    lookup and reading the form. *)
Theorem missing_field_is_400 (p : Process) (sess : Session) (fd : FormData) :
  env_getSession env = Normal (Some sess, None) ->
  env_formData env = Normal fd ->
  truthy (formData_get (js "title") fd) = false
  \/ truthy (formData_get (js "location") fd) = false
  \/ truthy (formData_get (js "image") fd) = false ->
  POST VECTOR_DIMENSION env p =
    {| response :=
         Some (json_response 400 (error_body (js "Missing required fields")));
       final := p;
       events := up_to_form (session_user sess) |}
  /\ existsb side_effect (up_to_form (session_user sess)) = false.
Proof.
  intros Hsession Hform Hmissing. split; [| reflexivity].
  open_handler. cbn. rewrite Hsession. cbn. rewrite Hform. cbn.
  destruct p.
  destruct (truthy (formData_get (js "title") fd)) eqn:Ht;
    [| reflexivity].
  destruct (formData_get (js "title") fd) as [t|]; [| discriminate Ht].
  destruct (truthy (formData_get (js "location") fd)) eqn:Hl;
    [| reflexivity].
  destruct (formData_get (js "location") fd) as [l|]; [| discriminate Hl].
  destruct (truthy (formData_get (js "image") fd)) eqn:Hi;
    [| reflexivity].
  destruct Hmissing as [H | [H | H]]; discriminate H.
Qed.

End EarlyExits.


Section Retry.

Variable VECTOR_DIMENSION : nat.
Variable env : Env.

#[local] Arguments insert_with_retry : simpl never.

(** [POST] is its [try ... catch] run after the first console line. *)
Lemma POST_unfold (p : Process) :
  POST VECTOR_DIMENSION env p =
    respond (try_catch (try_block VECTOR_DIMENSION env) (catch_block env)
               (entering p)).
Proof.
  unfold POST, respond, bind, console, emit, modify, initial, entering. cbn.
  now destruct (try_catch _ _ _) as [[r|e] s].
Qed.

(** Such a request whose vector has the expected length arrives at the
    retry loop, in the state [before_insert]. *)
Lemma reaches_retry_loop p sess fd title location image vector :
  Embedded env p sess fd title location image vector ->
  length vector = VECTOR_DIMENSION ->
  try_block VECTOR_DIMENSION env (entering p) =
    insert_with_retry env (session_user sess) title
      (description_or_empty (formData_get (js "description") fd))
      location vector (env_now env 0) maxRetries 1 None
      (before_insert env p sess image).
Proof.
  intros [[Hs Hf Ht Htt Hl Hlt Hi Hu] Hurl Hp Hm [rest Hv]] Hlen.
  unfold try_block, store_embed_insert, getProcessor, getModel, required, bind, before_insert, loading.
  cbn. rewrite Hs. cbn. rewrite Hf. cbn.
  rewrite Ht, Htt, Hl, Hlt, Hi. cbn. rewrite Hu. cbn. rewrite Hurl. cbn.
  destruct p as [st [|] [|]]; cbn in *.
  all: rewrite ?Hp, ?Hm by reflexivity; cbn; rewrite Hv; cbn.
  all: rewrite Hlen, Nat.eqb_refl; cbn.
  all: reflexivity.
Qed.

Ltac enter_loop H Hlen :=
  rewrite POST_unfold; unfold try_catch;
  rewrite (reaches_retry_loop _ _ _ _ _ _ _ H Hlen);
  unfold insert_with_retry, insert_attempt, try_catch, catch_block, bind,
    before_insert, loading.

(** C1: a request that passes authentication, validation, storage upload
    and embedding generation, and whose insert fails at attempts 1 and 2
    and succeeds at attempt 3, is answered 200 with the success body; it
    makes exactly three insert attempts, waiting 2000 ms between the
    first and the second and 4000 ms between the second and the third,
    and leaves the item's status complete. *)
Theorem third_attempt_succeeds p sess fd title location image vector e1 e2 :
  Embedded env p sess fd title location image vector ->
  length vector = VECTOR_DIMENSION ->
  env_insert env 1 = Throws e1 ->
  env_insert env 2 = Throws e2 ->
  env_insert env 3 = Normal tt ->
  let o := POST VECTOR_DIMENSION env p in
  let item := row env sess fd title location vector in
  response o =
    Some (json_response 200
            (success_body (env_uuidv4 env)
               (public_url_or_empty (env_getPublicUrl env))
               (env_now env 3 - env_now env 0)))
  /\ persistence (events o) =
       [InsertItem item; Sleep 2000; InsertItem item; Sleep 4000;
        InsertItem item]
  /\ processingStatus (final o) !! env_uuidv4 env =
       Some (status_complete (env_now env 2)).
Proof.
  intros H Hlen H1 H2 H3 o item. subst o item.
  enter_loop H Hlen.
  cbn. rewrite H1, H2, H3.
  destruct (is_rls_violation e1), (is_rls_violation e2); cbn.
  all: split; [reflexivity | split; [| apply lookup_insert_eq]].
  all: destruct p as [st [|] [|]]; reflexivity.
Qed.

(** The general [catch] block when an identifier has been drawn. *)
Lemma catch_block_records (e : JsThrown) (s : State) :
  JsString.truthy (itemId (locals s)) = true ->
  catch_block env e s =
    (Normal (Some (json_response 500
                     (error_body (js "Upload failed: " ++ error_text e)))),
     {| proc :=
          {| processingStatus :=
               <[itemId (locals s) :=
                   status_error e (env_now env (clock_reads s))]>
                 (processingStatus (proc s));
             _processor := _processor (proc s);
             _model := _model (proc s) |};
        locals := locals s;
        clock_reads := S (clock_reads s);
        trace := trace s ++ [Console console_error (LogUnhandledError e)] |}).
Proof.
  intros Hid. unfold catch_block, bind. cbn. rewrite Hid. reflexivity.
Qed.

(** C2, as the code has it: when the insert fails at every attempt, the
    handler makes exactly three attempts and answers 500 with the JSON
    object whose one member [error] is the text [Upload failed: Failed
    database insert after 3 attempts: ] followed by the third error's
    [message] if that error is an [Error] instance, and by [String(error)]
    if it is anything else; it leaves the terminal status [error], with
    the same text less its first two words, under the item's identifier
    ([uuidv4] yielding a non-empty string). *)
Theorem retries_exhausted p sess fd title location image vector
    (errs : nat -> JsThrown) :
  Embedded env p sess fd title location image vector ->
  length vector = VECTOR_DIMENSION ->
  JsString.truthy (env_uuidv4 env) = true ->
  (forall k, env_insert env k = Throws (errs k)) ->
  let o := POST VECTOR_DIMENSION env p in
  let item := row env sess fd title location vector in
  let reason :=
    match errs 3%nat with
    | ThrownError message _ => message
    | ThrownObject str _ | ThrownPrim _ str => str
    end in
  persistence (events o) =
    [InsertItem item; Sleep 2000; InsertItem item; Sleep 4000;
     InsertItem item]
  /\ response o =
       Some {| response_status := 500;
               response_headers :=
                 [("Content-Type", "application/json")%string];
               response_body :=
                 [("error"%string,
                   JString
                     (js "Upload failed: Failed database insert after 3 attempts: "
                      ++ reason))] |}
  /\ processingStatus (final o) !! env_uuidv4 env =
       Some {| status := error;
               message := js "Failed database insert after 3 attempts: "
                          ++ reason;
               timestamp := env_now env 2 |}.
Proof.
  intros H Hlen Hid Hfail o item reason. subst o item reason.
  rewrite POST_unfold. unfold try_catch.
  rewrite (reaches_retry_loop _ _ _ _ _ _ _ H Hlen).
  unfold insert_with_retry, insert_attempt, try_catch, bind, before_insert,
    loading.
  cbn -[catch_block]. rewrite !Hfail.
  destruct (is_rls_violation (errs 1%nat)), (is_rls_violation (errs 2%nat)),
    (is_rls_violation (errs 3%nat)); cbn -[catch_block].
  all: rewrite catch_block_records by exact Hid.
  all: split; [| split; [| etransitivity; [apply lookup_insert_eq |]]].
  all: try (destruct p as [st [|] [|]]; reflexivity).
  all: destruct (errs 3%nat); reflexivity.
Qed.
End Retry.

Section EveryPath.

Variable VECTOR_DIMENSION : nat.
Variable env : Env.

(** C7, as the code has it: in every run the insert attempts and the waits
    between them form a [schedule]: attempt [k], when it fails and another
    attempt follows, is followed by a wait of [2^k] seconds, so 2 s after
    the first attempt and 4 s after the second; at most two waits occur and
    none follows the third attempt. *)
Theorem waits_double_from_two_seconds (p : Process) :
  let evs := persistence (events (POST VECTOR_DIMENSION env p)) in
  (evs = [] \/ exists item n, (n <= 2)%nat /\ evs = schedule item n)
  /\ retry_delay 1 = 2000 /\ retry_delay 2 = 4000.
Proof.
  split; [| split; reflexivity].
  open_handler. destruct p as [st pr mo].
  explore.
  all: first
    [ left; reflexivity
    | right; eexists _, 0%nat; split; [lia | reflexivity]
    | right; eexists _, 1%nat; split; [lia | reflexivity]
    | right; eexists _, 2%nat; split; [lia | reflexivity] ].
Qed.

(** X1: the exported function either rejects, which happens exactly when
    the construction of the request-scoped client at line 74 throws, or
    answers; every answer is sent as JSON with one of four status codes,
    and every answer other than 200 is an object whose one member is
    [error], a string. *)
Lemma response_is_classified (client : Completion unit) (p : Process) :
  match route_POST client VECTOR_DIMENSION env p with
  | Rejected e _ => client = Throws e
  | Answered o =>
      exists r,
        response o = Some r
        /\ response_headers r = [("Content-Type", "application/json")%string]
        /\ (response_status r = 200
            \/ (response_status r = 400 \/ response_status r = 401
                \/ response_status r = 500)
               /\ exists msg,
                    response_body r = [("error"%string, JString msg)])
  end.
Proof.
  destruct client as [[] | e]; [| reflexivity].
  unfold route_POST.
  open_handler. destruct p as [st pr mo].
  explore.
  all: eexists; split; [reflexivity |]; cbn.
  all: split; [reflexivity |].
  all: first [ left; reflexivity | right; split; [| eexists; reflexivity] ].
  all: auto.
Qed.

End EveryPath.

Section Rls.
Variable VECTOR_DIMENSION : nat.
Variable env : Env.

Lemma actions_app (a b : list Event) : actions (a ++ b) = actions a ++ actions b.
Proof. apply List.filter_app. Qed.

Lemma rls_reports_app (a b : list Event) :
  rls_reports (a ++ b) = (rls_reports a + rls_reports b)%nat.
Proof. unfold rls_reports. now rewrite List.filter_app, length_app. Qed.

Lemma rls_failures_app (a b : list Event) :
  rls_failures (a ++ b) = (rls_failures a + rls_failures b)%nat.
Proof. unfold rls_failures. now rewrite List.filter_app, length_app. Qed.

Lemma forget_code_not_rls (e : JsThrown) :
  is_rls_violation (forget_code e) = false.
Proof. now destruct e. Qed.

Lemma forget_code_text (e : JsThrown) :
  error_text (forget_code e) = error_text e.
Proof. now destruct e. Qed.

Lemma forget_code_twice (e : JsThrown) :
  forget_code (forget_code e) = forget_code e.
Proof. now destruct e. Qed.

Lemma same_text (e e' : JsThrown) :
  forget_code e = forget_code e' -> error_text e = error_text e'.
Proof.
  intros H. now rewrite <- (forget_code_text e), H, forget_code_text.
Qed.

Lemma same_status (e e' : JsThrown) :
  forget_code e = forget_code e' -> status_error e = status_error e'.
Proof. destruct e, e'; cbn; intros [= -> ]; try reflexivity; congruence. Qed.

Lemma same_truthiness (e e' : JsThrown) :
  forget_code e = forget_code e' -> thrown_truthy e = thrown_truthy e'.
Proof. destruct e, e'; cbn; congruence. Qed.

#[local] Arguments actions : simpl never.
#[local] Arguments rls_reports : simpl never.
#[local] Arguments rls_failures : simpl never.

(** Split the traces of an [agree] goal into what was there and what was
    added, use what is known of the former and compute the latter. *)
Ltac agree_by Ha Hr Hz :=
  unfold agree; cbn;
  rewrite ?actions_app, ?rls_reports_app, ?rls_failures_app;
  rewrite Ha, Hr, Hz;
  unfold actions, rls_reports, rls_failures; cbn;
  rewrite ?app_nil_r.

(** One turn of the loop keeps the two runs in step. *)
Lemma insert_attempt_agrees user t d l v start k s s' :
  agree s s' ->
  related same_turn
    (fst (insert_attempt env user t d l v start k s))
    (fst (insert_attempt (without_codes env) user t d l v start k s'))
  /\ agree (snd (insert_attempt env user t d l v start k s))
           (snd (insert_attempt (without_codes env) user t d l v start k s')).
Proof.
  destruct s as [pr lo cr tr], s' as [pr' lo' cr' tr'].
  intros (Hp & Hl & Hc & Ha & Hr & Hz). cbn in *. subst pr' lo' cr'.
  unfold insert_attempt, try_catch, bind. cbn.
  destruct (env_insert env k) as [[]|e]; cbn.
  - split; [reflexivity |]. agree_by Ha Hr Hz.
    repeat split; try reflexivity; try lia.
  - rewrite forget_code_not_rls, forget_code_text.
    destruct (is_rls_violation e) eqn:He, (k =? maxRetries)%nat; cbn.
    all: split; [now rewrite ?forget_code_twice |].
    all: agree_by Ha Hr Hz; rewrite ?He; cbn; rewrite ?app_nil_r.
    all: repeat split; try reflexivity; try lia.
Qed.

(** So does the whole loop, by induction on the turns left. *)
Lemma insert_with_retry_agrees user t d l v start remaining :
  forall k lastError lastError' s s',
    forget_code <$> lastError = forget_code <$> lastError' ->
    agree s s' ->
    related eq
      (fst (insert_with_retry env user t d l v start remaining k lastError s))
      (fst (insert_with_retry (without_codes env) user t d l v start remaining
              k lastError' s'))
    /\ agree
         (snd (insert_with_retry env user t d l v start remaining k lastError s))
         (snd (insert_with_retry (without_codes env) user t d l v start
                 remaining k lastError' s')).
Proof.
  induction remaining as [| n IH]; intros k lastError lastError' s s' Hlast Hagree;
    cbn [insert_with_retry].
  - destruct lastError as [e|], lastError' as [e'|]; try discriminate Hlast;
      [| now split].
    injection Hlast as Hlast. rewrite (same_truthiness _ _ Hlast).
    destruct (thrown_truthy e'); now split.
  - unfold bind.
    destruct (insert_attempt_agrees user t d l v start k s s' Hagree)
      as [Hturn Hnext].
    destruct (insert_attempt env user t d l v start k s) as [[[r|e]|e] s1],
      (insert_attempt (without_codes env) user t d l v start k s')
      as [[[r'|e']|e'] s1']; cbn in *; try contradiction.
    + subst r'. now split.
    + apply IH; [cbn; now rewrite Hturn | exact Hnext].
    + now split.
Qed.

(** And so does the general [catch] block. *)
Lemma catch_block_agrees e e' s s' :
  forget_code e = forget_code e' ->
  agree s s' ->
  related eq (fst (catch_block env e s))
             (fst (catch_block (without_codes env) e' s'))
  /\ agree (snd (catch_block env e s))
           (snd (catch_block (without_codes env) e' s')).
Proof.
  destruct s as [pr lo cr tr], s' as [pr' lo' cr' tr'].
  intros Hsame (Hp & Hl & Hc & Ha & Hr & Hz). cbn in *. subst pr' lo' cr'.
  unfold catch_block, bind. cbn.
  rewrite (same_text _ _ Hsame), (same_status _ _ Hsame).
  destruct (JsString.truthy (itemId lo)); cbn.
  all: split; [reflexivity |]; agree_by Ha Hr Hz.
  all: repeat split; try reflexivity; try lia.
Qed.

#[local] Arguments insert_with_retry : simpl never.

(** Up to the loop the two runs are the same run. *)
Lemma try_block_agrees (p : Process) :
  related eq (fst (try_block VECTOR_DIMENSION env (entering p)))
             (fst (try_block VECTOR_DIMENSION (without_codes env) (entering p)))
  /\ agree (snd (try_block VECTOR_DIMENSION env (entering p)))
           (snd (try_block VECTOR_DIMENSION (without_codes env) (entering p))).
Proof.
  unfold try_block, store_embed_insert, getProcessor, getModel, required, bind.
  destruct p as [st pr mo].
  repeat (cbn;
    match goal with
    | |- context [match ?x with _ => _ end] =>
        lazymatch x with
        | context [match _ with _ => _ end] => fail
        | context [insert_with_retry] => fail
        | _ => destruct x eqn:?
        end
    end).
  all: cbn.
  all: try (split; [reflexivity | repeat split; reflexivity]).
  all: apply insert_with_retry_agrees; [reflexivity |].
  all: repeat split; reflexivity.
Qed.

End Rls.

Section Dimension.

Variable VECTOR_DIMENSION : nat.
Variable env : Env.

(** The retry loop only ever submits the vector it was given. *)
Lemma inserts_only_refl v s : inserts_only v s s.
Proof. exists []. split; [now rewrite app_nil_r | constructor]. Qed.

Lemma inserts_only_trans v s1 s2 s3 :
  inserts_only v s1 s2 -> inserts_only v s2 s3 -> inserts_only v s1 s3.
Proof.
  intros (e1 & H1 & F1) (e2 & H2 & F2). exists (e1 ++ e2). split.
  - now rewrite H2, H1, app_assoc.
  - unfold inserted in *. rewrite omap_app. now apply Forall_app.
Qed.

Lemma insert_attempt_inserts user t d l v start k s :
  inserts_only v s (snd (insert_attempt env user t d l v start k s)).
Proof.
  unfold insert_attempt, try_catch, bind. cbn.
  destruct (env_insert env k) as [[]|e]; cbn.
  - eexists. split; [rewrite <- !app_assoc; reflexivity |].
    cbn. repeat constructor.
  - destruct (is_rls_violation e), (k =? maxRetries)%nat; cbn.
    all: eexists; split; [rewrite <- !app_assoc; reflexivity |].
    all: cbn; repeat constructor.
Qed.

Lemma insert_with_retry_inserts user t d l v start remaining :
  forall k lastError s,
    inserts_only v s
      (snd (insert_with_retry env user t d l v start remaining k lastError s)).
Proof.
  induction remaining as [| n IH]; intros k lastError s; cbn [insert_with_retry].
  - destruct lastError as [e|]; [destruct (thrown_truthy e) |]; cbn;
      apply inserts_only_refl.
  - unfold bind.
    pose proof (insert_attempt_inserts user t d l v start k s) as Hturn.
    destruct (insert_attempt env user t d l v start k s) as [[[r|e]|e] s'];
      cbn in *; [exact Hturn | | exact Hturn].
    eapply inserts_only_trans; [exact Hturn | apply IH].
Qed.

#[local] Arguments insert_with_retry : simpl never.

(** C3: every row the handler submits carries an embedding whose length is
    [VECTOR_DIMENSION] and which is, unchanged, the first vector the
    pipeline returned (neither truncated nor padded); and when the computed
    vector has another length the request is answered 500 with the
    dimension-mismatch message without a single insert attempt. *)
Theorem persisted_embedding_has_fixed_dimension (p : Process) :
  (forall item,
     item ∈ inserted (events (POST VECTOR_DIMENSION env p)) ->
     length (embedding item) = VECTOR_DIMENSION
     /\ exists rest, env_image_embeds env = Normal (embedding item :: rest))
  /\ (forall sess fd title location image vector,
        Embedded env p sess fd title location image vector ->
        length vector <> VECTOR_DIMENSION ->
        response (POST VECTOR_DIMENSION env p) =
          Some (json_response 500
                  (error_body (js "Upload failed: "
                     ++ dimension_mismatch VECTOR_DIMENSION (length vector))))
        /\ inserted (events (POST VECTOR_DIMENSION env p)) = []).
Proof.
  split.
  - intros item. rewrite POST_unfold.
    unfold respond, try_catch, try_block, catch_block, store_embed_insert,
      getProcessor, getModel, required, bind.
    destruct p as [st pr mo].
    repeat (cbn;
      match goal with
      | |- context [match ?x with _ => _ end] =>
          lazymatch x with
          | context [match _ with _ => _ end] => fail
          | _ => destruct x eqn:?
          end
      end).
    all: cbn.
    all: try (intros Hin; apply elem_of_nil in Hin; contradiction).
    all: match goal with
         | H : insert_with_retry _ ?u ?t ?d ?l ?v ?st ?r ?k ?le ?s0 = _ |- _ =>
             pose proof (insert_with_retry_inserts u t d l v st r k le s0) as Hloop;
             rewrite H in Hloop; destruct Hloop as (evs & Htrace & Hall);
             cbn in Htrace; rewrite ?Htrace
         end.
    all: unfold inserted in Hall; cbn; rewrite ?omap_app; cbn;
      rewrite ?app_nil_r.
    all: intros Hin; rewrite Forall_forall in Hall; apply Hall in Hin.
    all: rewrite Hin; split; [| eauto].
    all: match goal with
         | H : negb (_ =? _)%nat = false |- _ =>
             apply negb_false_iff, Nat.eqb_eq in H; exact H
         end.
  - intros sess fd title location image vector
      [[Hs Hf Ht Htt Hl Hlt Hi Hu] Hurl Hp Hm [rest Hv]] Hlen.
    apply Nat.eqb_neq in Hlen.
    open_handler. cbn. rewrite Hs. cbn. rewrite Hf. cbn.
    rewrite Ht, Htt, Hl, Hlt, Hi. cbn. rewrite Hu. cbn. rewrite Hurl. cbn.
    destruct p as [st [|] [|]]; cbn in *.
    all: rewrite ?Hp, ?Hm by reflexivity; cbn; rewrite Hv; cbn.
    all: rewrite Hlen; cbn.
    all: destruct (JsString.truthy (env_uuidv4 env)); cbn; split; reflexivity.
Qed.
End Dimension.

Section Url.

Variable VECTOR_DIMENSION : nat.
Variable env : Env.

(** C6: a response with status 200 is sent as JSON and is the object with
    the members [success] (true), [itemId] (the item's identifier),
    [imageUrl] and [processingTime], in which [imageUrl] is a non-empty
    string, the public URL the object store returned; and when the object
    store yields no public URL or an empty one, the request is answered
    500 with an [{error}] object and nothing is inserted. *)
Theorem success_carries_image_url (p : Process) :
  (forall r,
     response (POST VECTOR_DIMENSION env p) = Some r ->
     response_status r = 200 ->
     exists url elapsed,
       env_getPublicUrl env = Some {| publicUrl := Some url |}
       /\ url <> []
       /\ response_headers r = [("Content-Type", "application/json")%string]
       /\ response_body r =
            [("success"%string, JBool true);
             ("itemId"%string, JString (env_uuidv4 env));
             ("imageUrl"%string, JString url);
             ("processingTime"%string, JNumber elapsed)])
  /\ (forall sess fd title location image,
        Uploaded env sess fd title location image ->
        public_url_or_empty (env_getPublicUrl env) = [] ->
        response (POST VECTOR_DIMENSION env p) =
          Some {| response_status := 500;
                  response_headers :=
                    [("Content-Type", "application/json")%string];
                  response_body :=
                    [("error"%string,
                      JString
                        (js "Upload failed: Failed to get public URL for uploaded image."))] |}
        /\ inserted (events (POST VECTOR_DIMENSION env p)) = []).
Proof.
  split.
  - intros r. open_handler. destruct p as [st pr mo].
    explore.
    all: cbn; intros Hr Hst.
    all: try discriminate Hr.
    all: injection Hr as <-.
    all: try discriminate Hst.
    all: match goal with
         | H : negb (JsString.truthy _) = false |- _ => revert H
         end.
    all: destruct (env_getPublicUrl env) as [[[[| c url] |]] |]; cbn.
    all: intros H; try discriminate H.
    all: eexists _, _; repeat split; try reflexivity; discriminate.
  - intros sess fd title location image [Hs Hf Ht Htt Hl Hlt Hi Hu] Hurl.
    open_handler. cbn. rewrite Hs. cbn. rewrite Hf. cbn.
    rewrite Ht, Htt, Hl, Hlt, Hi. cbn. rewrite Hu. cbn. rewrite Hurl. cbn.
    destruct (JsString.truthy (env_uuidv4 env)); cbn; split; reflexivity.
Qed.

End Url.

(** ** The properties on a concrete request *)

Lemma sample_uploaded public insert :
  Uploaded (Sample.world Sample.signed_in (Some Sample.one_byte) public insert)
    Sample.session (Sample.form (Some Sample.one_byte))
    (EntryString (js "Keys")) (EntryString (js "Library"))
    (Sample.photo [x01]).
Proof. constructor; reflexivity. Qed.

Lemma sample_embedded insert :
  Embedded (Sample.ready insert) Sample.fresh
    Sample.session (Sample.form (Some Sample.one_byte))
    (EntryString (js "Keys")) (EntryString (js "Library"))
    (Sample.photo [x01]) Sample.vector.
Proof.
  constructor; try reflexivity.
  - apply sample_uploaded.
  - now exists [].
Qed.

(** C1 on a database stub that fails twice and then succeeds. *)
Lemma third_attempt_succeeds_witness :
  let o := POST 3 (Sample.ready Sample.fails_twice) Sample.fresh in
  (response_status <$> response o) = Some 200
  /\ sleeps (events o) = [2000; 4000]
  /\ length (inserted (events o)) = 3%nat.
Proof.
  destruct (third_attempt_succeeds 3 (Sample.ready Sample.fails_twice)
              Sample.fresh _ _ _ _ _ _ Sample.timeout_error Sample.timeout_error
              (sample_embedded _) eq_refl eq_refl eq_refl eq_refl)
    as (Hresponse & Htimeline & _).
  cbv zeta. rewrite Hresponse.
  split; [reflexivity | split; vm_compute; reflexivity].
Defined.

(** C2 on a database stub that always fails, its third failure being a
    plain object, and on one whose failures are all [Error]s. *)
Lemma retries_exhausted_witness :
  let o := POST 3 (Sample.ready Sample.always_fails) Sample.fresh in
  let o' := POST 3 (Sample.ready Sample.times_out) Sample.fresh in
  (response_status <$> response o) = Some 500
  /\ (response_body <$> response o) =
       Some [("error"%string,
              JString
                (js "Upload failed: Failed database insert after 3 attempts: [object Object]"))]
  /\ length (inserted (events o)) = 3%nat
  /\ (status <$> processingStatus (final o) !! js "0b5e") = Some error
  /\ (response_body <$> response o') =
       Some [("error"%string,
              JString
                (js "Upload failed: Failed database insert after 3 attempts: connection timed out"))].
Proof.
  destruct (retries_exhausted 3 (Sample.ready Sample.always_fails)
              Sample.fresh _ _ _ _ _ _ Sample.alternating
              (sample_embedded _) eq_refl eq_refl (fun k => eq_refl))
    as (Htimeline & Hresponse & Hstatus).
  destruct (retries_exhausted 3 (Sample.ready Sample.times_out)
              Sample.fresh _ _ _ _ _ _ (fun _ => Sample.timeout_error)
              (sample_embedded _) eq_refl eq_refl (fun k => eq_refl))
    as (_ & Hresponse' & _).
  cbv zeta. rewrite Hresponse, Hresponse'.
  split; [reflexivity | split; [reflexivity | split; [| split]]].
  - vm_compute. reflexivity.
  - change (js "0b5e") with (env_uuidv4 (Sample.ready Sample.always_fails)).
    rewrite Hstatus. reflexivity.
  - reflexivity.
Defined.

(** C2 as the specification words it fails: when the database rejects with
    a plain object rather than an [Error], the answer does not carry that
    object's message; it carries [String] of the object. *)
Lemma plain_rejection_loses_its_message :
  ~ (forall VECTOR_DIMENSION env p sess fd title location image vector
            (rejected : nat -> Rejection),
       Embedded env p sess fd title location image vector ->
       length vector = VECTOR_DIMENSION ->
       JsString.truthy (env_uuidv4 env) = true ->
       (forall k, env_insert env k = Throws (caught (rejected k))) ->
       let o := POST VECTOR_DIMENSION env p in
       length (inserted (events o)) = 3%nat
       /\ (status <$> processingStatus (final o) !! env_uuidv4 env)
          = Some error
       /\ exists r text,
            response o = Some r
            /\ response_status r = 500
            /\ response_body r = [("error"%string, JString text)]
            /\ JsString.includes (rejection_message (rejected 3%nat)) text
               = true).
Proof.
  intros Hspec.
  destruct (Hspec 3%nat (Sample.ready Sample.always_fails) Sample.fresh
              _ _ _ _ _ _ Sample.rejections (sample_embedded _)
              eq_refl eq_refl
              ltac:(intros k;
                    unfold env_insert, Sample.ready, Sample.world,
                      Sample.always_fails, Sample.rejections;
                    destruct (Nat.even k); reflexivity))
    as (_ & _ & r & text & Hr & _ & Hbody & Hcarried).
  vm_compute in Hr. injection Hr as <-.
  vm_compute in Hbody. injection Hbody as <-.
  vm_compute in Hcarried. discriminate Hcarried.
Qed.

(** What that answer says instead. *)
Example plain_rejection_is_reported_as_object :
  (response_body <$>
     response (POST 3 (Sample.ready (fun _ => Throws (caught Sample.denied)))
                 Sample.fresh))
  = Some [("error"%string,
           JString
             (js "Upload failed: Failed database insert after 3 attempts: [object Object]"))].
Proof. vm_compute. reflexivity. Qed.

(** C3 on the same request, with the expected dimension 3 and then 4. *)
Lemma persisted_embedding_has_fixed_dimension_witness :
  (forall item,
     item ∈ inserted (events (POST 3 (Sample.ready Sample.fails_twice)
                                Sample.fresh)) ->
     length (embedding item) = 3%nat)
  /\ (response_status <$>
        response (POST 4 (Sample.ready Sample.fails_twice) Sample.fresh))
     = Some 500
  /\ inserted (events (POST 4 (Sample.ready Sample.fails_twice) Sample.fresh))
     = [].
Proof.
  split.
  - intros item Hitem.
    exact (proj1 (proj1 (persisted_embedding_has_fixed_dimension 3
                           (Sample.ready Sample.fails_twice) Sample.fresh)
                    item Hitem)).
  - destruct (proj2 (persisted_embedding_has_fixed_dimension 4
                       (Sample.ready Sample.fails_twice) Sample.fresh)
                _ _ _ _ _ _ (sample_embedded _)
                ltac:(vm_compute; discriminate))
      as (Hresponse & Hnone).
    rewrite Hresponse. split; [reflexivity | exact Hnone].
Defined.

(** A submitted row exists in that run, so the first part above is not
    vacuous. *)
Example sample_row_is_submitted :
  row (Sample.ready Sample.fails_twice) Sample.session
    (Sample.form (Some Sample.one_byte))
    (EntryString (js "Keys")) (EntryString (js "Library")) Sample.vector
  ∈ inserted (events (POST 3 (Sample.ready Sample.fails_twice) Sample.fresh)).
Proof. vm_compute. constructor. Qed.

(** C4 as the specification words it fails: a form whose image is a file of
    no bytes is not turned away; the image is uploaded. *)
Lemma empty_file_passes_validation :
  ~ (forall VECTOR_DIMENSION env p sess fd,
       env_getSession env = Normal (Some sess, None) ->
       env_formData env = Normal fd ->
       (missing_or_empty (formData_get (js "title") fd)
        || missing_or_empty (formData_get (js "location") fd)
        || missing_or_empty (formData_get (js "image") fd)) = true ->
       response (POST VECTOR_DIMENSION env p) =
         Some (json_response 400 (error_body (js "Missing required fields")))
       /\ existsb side_effect (events (POST VECTOR_DIMENSION env p)) = false
       /\ processingStatus (final (POST VECTOR_DIMENSION env p))
          = processingStatus p).
Proof.
  intros Hspec.
  destruct (Hspec 3%nat
              (Sample.world Sample.signed_in (Some Sample.no_bytes)
                 Sample.public_url Sample.fails_twice)
              Sample.fresh Sample.session
              (Sample.form (Some Sample.no_bytes))
              eq_refl eq_refl eq_refl) as (Hresponse & _).
  vm_compute in Hresponse. discriminate Hresponse.
Qed.

(** What happens on that form: the upload goes ahead and the request ends
    in 200. *)
Example empty_file_is_uploaded :
  let o := POST 3 (Sample.world Sample.signed_in (Some Sample.no_bytes)
                     Sample.public_url Sample.fails_twice) Sample.fresh in
  (response_status <$> response o) = Some 200
  /\ existsb side_effect (events o) = true.
Proof. vm_compute. split; reflexivity. Qed.

(** C4 on a form without an image. *)
Lemma missing_field_is_400_witness :
  response (POST 3 (Sample.world Sample.signed_in None Sample.public_url
                      Sample.fails_twice) Sample.fresh)
  = Some (json_response 400 (error_body (js "Missing required fields")))
  /\ events (POST 3 (Sample.world Sample.signed_in None Sample.public_url
                       Sample.fails_twice) Sample.fresh)
     = up_to_form Sample.user.
Proof.
  destruct (missing_field_is_400 3
              (Sample.world Sample.signed_in None Sample.public_url
                 Sample.fails_twice)
              Sample.fresh Sample.session (Sample.form None)
              eq_refl eq_refl (or_intror (or_intror eq_refl)))
    as (Hrun & _).
  rewrite Hrun. split; reflexivity.
Defined.

(** C5 on a request without a session. *)
Lemma no_session_is_401_witness :
  (response_status <$>
     response (POST 3 (Sample.world (None, None) (Some Sample.one_byte)
                         Sample.public_url Sample.fails_twice) Sample.fresh))
  = Some 401.
Proof.
  rewrite (no_session_is_401 3
             (Sample.world (None, None) (Some Sample.one_byte)
                Sample.public_url Sample.fails_twice)
             Sample.fresh eq_refl).
  reflexivity.
Defined.

(** C10 on a request whose session lookup reports an error. *)
Lemma session_error_is_500_witness :
  (response_status <$>
     response (POST 3 (Sample.world (None, Some Sample.session_failure)
                         (Some Sample.one_byte) Sample.public_url
                         Sample.fails_twice) Sample.fresh))
  = Some 500.
Proof.
  rewrite (session_error_is_500 3
             (Sample.world (None, Some Sample.session_failure)
                (Some Sample.one_byte) Sample.public_url Sample.fails_twice)
             Sample.fresh None Sample.session_failure eq_refl).
  reflexivity.
Defined.

(** C6 on a successful request, and on one whose public URL is missing. *)
Lemma success_carries_image_url_witness :
  (exists elapsed,
     (response_body <$>
        response (POST 3 (Sample.ready Sample.fails_twice) Sample.fresh))
     = Some [("success"%string, JBool true);
             ("itemId"%string, JString (js "0b5e"));
             ("imageUrl"%string,
              JString (js "https://cdn.example.org/0b5e-my_keys.png"));
             ("processingTime"%string, JNumber elapsed)])
  /\ (response_status <$>
        response (POST 3 (Sample.world Sample.signed_in (Some Sample.one_byte)
                            None Sample.fails_twice) Sample.fresh))
     = Some 500.
Proof.
  split.
  - destruct (response (POST 3 (Sample.ready Sample.fails_twice)
                          Sample.fresh)) as [r |] eqn:Hr;
      [| vm_compute in Hr; discriminate Hr].
    destruct (proj1 (success_carries_image_url 3
                       (Sample.ready Sample.fails_twice) Sample.fresh)
                r Hr
                ltac:(vm_compute in Hr; injection Hr as <-; reflexivity))
      as (url & elapsed & Hurl & _ & _ & Hbody).
    injection Hurl as <-.
    exists elapsed. cbn [fmap option_fmap option_map].
    rewrite Hbody. reflexivity.
  - destruct (proj2 (success_carries_image_url 3
                       (Sample.world Sample.signed_in (Some Sample.one_byte)
                          None Sample.fails_twice) Sample.fresh)
                _ _ _ _ _ (sample_uploaded None Sample.fails_twice) eq_refl)
      as (Hresponse & _).
    rewrite Hresponse. reflexivity.
Defined.

(** X1 on the request whose inserts all fail, and on one for which no
    client could be made. *)
Lemma response_is_classified_witness :
  (exists r,
     response (POST 3 (Sample.ready Sample.always_fails) Sample.fresh) = Some r
     /\ response_status r <> 200
     /\ exists msg, response_body r = [("error"%string, JString msg)])
  /\ route_POST (Throws Sample.timeout_error) 3
       (Sample.ready Sample.always_fails) Sample.fresh
     = Rejected Sample.timeout_error [Console console_log LogUploadApiCalled].
Proof.
  split; [| reflexivity].
  pose proof (response_is_classified 3 (Sample.ready Sample.always_fails)
                (Normal tt) Sample.fresh) as (r & Hr & _ & Hclass).
  exists r. split; [exact Hr |].
  destruct Hclass as [H200 | [_ Hbody]].
  - vm_compute in Hr. injection Hr as <-. discriminate H200.
  - split; [| exact Hbody].
    vm_compute in Hr. injection Hr as <-. discriminate.
Defined.

(** C7 as the specification words it fails: the first wait is not one
    second. *)
Lemma first_wait_is_two_seconds :
  ~ (forall VECTOR_DIMENSION env p d,
       head (sleeps (events (POST VECTOR_DIMENSION env p))) = Some d ->
       d = 1000).
Proof.
  intros Hspec.
  specialize (Hspec 3%nat (Sample.ready Sample.fails_twice) Sample.fresh
                2000 eq_refl).
  discriminate Hspec.
Qed.

(** C8 on a request whose first and third failures are row-level-security
    rejections: both are reported, and all three attempts are made. *)
Example rls_rejections_are_reported_and_retried :
  let o := POST 3 (Sample.ready Sample.always_fails) Sample.fresh in
  rls_reports (events o) = 2%nat
  /\ sleeps (events o) = [2000; 4000]
  /\ length (inserted (events o)) = 3%nat.
Proof. vm_compute. repeat split. Qed.

End UploadProps.

(** * Properties of the main page *)

Module MainPageProps.

Import MainPage.

Lemma trim_start_blank (s : list N) :
  forallb JsString.is_space s = true -> JsString.trim_start s = [].
Proof.
  induction s as [| c r IH]; [reflexivity |].
  cbn. intros [Hc Hr]%andb_prop. rewrite Hc. now apply IH.
Qed.

(** Stripping leading white space leaves nothing or a first character that
    is not white space. *)
Lemma trim_start_head (s : list N) :
  match JsString.trim_start s with
  | [] => forallb JsString.is_space s = true
  | c :: _ => JsString.is_space c = false
  end.
Proof.
  induction s as [| c r IH]; [reflexivity |].
  cbn. destruct (JsString.is_space c) eqn:Hc; [| exact Hc].
  destruct (JsString.trim_start r); [exact IH | exact IH].
Qed.

Lemma trim_start_nil (s : list N) :
  JsString.trim_start s = [] -> forallb JsString.is_space s = true.
Proof.
  intros H. pose proof (trim_start_head s) as Hhead. now rewrite H in Hhead.
Qed.

(** [s.trim()] is empty exactly when [s] consists of white space. *)
Lemma trim_blank_iff (s : list N) :
  JsString.trim s = [] <-> forallb JsString.is_space s = true.
Proof.
  unfold JsString.trim, JsString.trim_end. split.
  - intros H. pose proof (trim_start_head s) as Hhead.
    destruct (JsString.trim_start s) as [| c r] eqn:Hs; [exact Hhead |].
    apply (f_equal (@rev N)) in H. rewrite rev_involutive in H. cbn in H.
    apply trim_start_nil in H. rewrite forallb_app in H.
    apply andb_prop in H as [_ H]. cbn in H. now rewrite Hhead in H.
  - intros H. now rewrite (trim_start_blank s H).
Qed.

Section TextSearch.

Variable Number : jsstring -> float.
Variable fetch : SearchRequest -> jsstring + FetchResponse.

(** C9: when the query is empty or consists of white space only, the
    handler clears the result list and returns; it does not call the search
    endpoint (behind which the embedding pipeline sits), nor does it touch
    the loading or progress state. *)
Theorem blank_query_short_circuits (c : Component) :
  forallb JsString.is_space (searchQuery c) = true ->
  handleTextSearch Number fetch c = [SetItems []]
  /\ existsb is_fetch (handleTextSearch Number fetch c) = false.
Proof.
  intros Hblank. apply trim_blank_iff in Hblank.
  unfold handleTextSearch. rewrite Hblank. now split.
Qed.

(** Conversely a query with a visible character gets past the guard: the
    handler starts by raising the loading flag. *)
Lemma visible_query_proceeds (c : Component) :
  forallb JsString.is_space (searchQuery c) = false ->
  head (handleTextSearch Number fetch c) = Some (SetLoading true).
Proof.
  intros Hvisible. unfold handleTextSearch.
  destruct (JsString.trim (searchQuery c)) eqn:Htrim; [| reflexivity].
  apply trim_blank_iff in Htrim. congruence.
Qed.

End TextSearch.

(** C9 on a query of three white-space characters. *)
Lemma blank_query_short_circuits_witness :
  handleTextSearch Sample.Number Sample.unreachable Sample.blank
  = [SetItems []].
Proof.
  exact (proj1 (blank_query_short_circuits Sample.Number Sample.unreachable
                  Sample.blank eq_refl)).
Defined.

(** A query with text reaches the endpoint with the text as typed. *)
Example keys_query_is_sent :
  existsb is_fetch
    (handleTextSearch Sample.Number Sample.unreachable Sample.keys) = true.
Proof. reflexivity. Qed.

End MainPageProps.

(** * More properties of the upload route *)

Module UploadMore.

Import Upload UploadTrace UploadProps.

#[local] Arguments JsString.lit : simpl never.
#[local] Arguments JsString.of_nat : simpl never.

(** Rewrite with what is known of a validated request while unfolding. *)
Ltac enter_validated H :=
  destruct H as [Hs Hf Ht Htt Hl Hlt Hi Hit];
  open_handler; cbn; rewrite Hs; cbn; rewrite Hf; cbn;
  rewrite Ht, Htt, Hl, Hlt, Hi, Hit; cbn.

(** Walk every path of one run, naming its response, final state and
    events. *)
Ltac explore_run p :=
  match goal with
  | |- context [POST ?d ?e p] =>
      let Hrun := fresh "Hrun" in
      destruct (POST d e p) as [r f evs] eqn:Hrun; revert Hrun
  end;
  open_handler; destruct p as [st pr mo];
  explore; cbn; intros [= <- <- <-].

Section Paths.

Variable VECTOR_DIMENSION : nat.
Variable env : Env.

(** A request with all three fields is not answered 400. *)
Lemma validated_is_not_400 p sess fd title location image :
  Validated env sess fd title location image ->
  status_of (POST VECTOR_DIMENSION env p) <> Some 400.
Proof.
  intros H. unfold status_of. enter_validated H.
  destruct p as [st pr mo].
  explore.
  all: cbn; discriminate.
Qed.

(** X3: a signed-in request whose form could be read is answered 400
    exactly when its title, location or image is falsy; with all three
    present the answer is never 400. *)
Theorem validation_is_presence_check p sess fd :
  env_getSession env = Normal (Some sess, None) ->
  env_formData env = Normal fd ->
  status_of (POST VECTOR_DIMENSION env p) = Some 400
  <-> (truthy (formData_get (js "title") fd) = false
       \/ truthy (formData_get (js "location") fd) = false
       \/ truthy (formData_get (js "image") fd) = false).
Proof.
  intros Hs Hf.
  destruct (truthy (formData_get (js "title") fd)) eqn:Ht;
    [destruct (truthy (formData_get (js "location") fd)) eqn:Hl;
     [destruct (truthy (formData_get (js "image") fd)) eqn:Hi |] |].
  - destruct (formData_get (js "title") fd) as [t|] eqn:Et; [| discriminate].
    destruct (formData_get (js "location") fd) as [l|] eqn:El; [| discriminate].
    destruct (formData_get (js "image") fd) as [i|] eqn:Ei; [| discriminate].
    split.
    + intros H400. exfalso.
      now apply (validated_is_not_400 p sess fd t l i).
    + intros [H | [H | H]]; discriminate H.
  - split; [auto |]. intros _. unfold status_of.
    open_handler. cbn. rewrite Hs. cbn. rewrite Hf. cbn. rewrite Ht, Hl, Hi.
    destruct (formData_get (js "title") fd), (formData_get (js "location") fd);
      reflexivity.
  - split; [auto |]. intros _. unfold status_of.
    open_handler. cbn. rewrite Hs. cbn. rewrite Hf. cbn. rewrite Ht, Hl.
    destruct (formData_get (js "title") fd); reflexivity.
  - split; [auto |]. intros _. unfold status_of.
    open_handler. cbn. rewrite Hs. cbn. rewrite Hf. cbn. rewrite Ht.
    reflexivity.
Qed.

(** X4: a request writes at most one key of [processingStatus], the
    identifier it drew; every other entry is as it was. *)
Theorem other_status_entries_are_untouched p (k : list N) :
  k <> env_uuidv4 env ->
  processingStatus (final (POST VECTOR_DIMENSION env p)) !! k
  = processingStatus p !! k.
Proof.
  intros Hk. open_handler. destruct p as [st pr mo].
  explore.
  all: cbn; rewrite ?lookup_insert_ne by congruence; reflexivity.
Qed.

(** X5: with a non-empty identifier a request never leaves its own
    status at [processing]: either it wrote no entry (and answered 400,
    401 or 500), or the entry is [complete] and the answer 200, or the
    entry is [error] and the answer 500. *)
Theorem status_entry_is_terminal p :
  JsString.truthy (env_uuidv4 env) = true ->
  let o := POST VECTOR_DIMENSION env p in
  (processingStatus (final o) = processingStatus p
   /\ (status_of o = Some 400 \/ status_of o = Some 401
       \/ status_of o = Some 500))
  \/ (exists t, processingStatus (final o) !! env_uuidv4 env
                = Some (status_complete t))
     /\ status_of o = Some 200
  \/ (exists st, processingStatus (final o) !! env_uuidv4 env = Some st
                 /\ status st = error)
     /\ status_of o = Some 500.
Proof.
  intros Hid. unfold status_of. cbv zeta. explore_run p.
  all: try congruence.
  all: cbn.
  all: first
    [ left; split; [reflexivity | auto]
    | right; left; split; [eexists; apply lookup_insert_eq | reflexivity]
    | right; right; split;
      [eexists; split; [apply lookup_insert_eq | reflexivity] | reflexivity] ].
Qed.


(** X6: when the object store reports an upload error the request is
    answered 500 with the store's message after that single upload: no
    second upload, no model loading, no embedding, no insert. *)
Theorem upload_error_is_not_retried p sess fd title location image e :
  Validated env sess fd title location (EntryFile image) ->
  env_upload env = Normal (Some e) ->
  let o := POST VECTOR_DIMENSION env p in
  response o =
    Some (json_response 500
            (error_body (js "Upload failed: " ++ js "Storage upload error: "
                         ++ storage_error_message e)))
  /\ uploads (events o)
     = [(js "item-images", stored_name env image, file_bytes image)]
  /\ loads (events o) = 0%nat
  /\ embeddings (events o) = 0%nat
  /\ inserted (events o) = []
  /\ _processor (final o) = _processor p
  /\ _model (final o) = _model p.
Proof.
  intros H Hu. cbv zeta. enter_validated H. rewrite Hu. cbn.
  destruct (JsString.truthy (env_uuidv4 env)); cbn; repeat split; reflexivity.
Qed.

(** What [getProcessor] and [getModel] keep and spare. *)
Lemma handles_are_kept p :
  let o := POST VECTOR_DIMENSION env p in
  (_processor p = true -> _processor (final o) = true)
  /\ (_model p = true -> _model (final o) = true)
  /\ (_processor p = true -> _model p = true -> loads (events o) = 0%nat)
  /\ (loads (events o) <= 2)%nat.
Proof.
  cbv zeta. explore_run p.
  all: cbn; repeat split; intros; first [assumption | discriminate | lia | reflexivity].
Qed.

(** X9: when the processor and the model are loaded, a request calls
    [from_pretrained] not once, and leaves both loaded, whatever else
    happens to it. *)
Theorem loaded_handles_are_reused p :
  _processor p = true ->
  _model p = true ->
  let o := POST VECTOR_DIMENSION env p in
  loads (events o) = 0%nat
  /\ _processor (final o) = true
  /\ _model (final o) = true.
Proof.
  intros Hp Hm. cbv zeta.
  destruct (handles_are_kept p) as (H1 & H2 & H3 & _). auto.
Qed.


(** X10: when the processor is not loaded and loading it fails, the
    request is answered 500 with the loader's message, the processor stays
    unloaded (the next request tries again), the model is not touched, and
    nothing is embedded or inserted. *)
Theorem failed_load_is_not_remembered p sess fd title location image e :
  Uploaded env sess fd title location image ->
  JsString.truthy (public_url_or_empty (env_getPublicUrl env)) = true ->
  _processor p = false ->
  env_processor_from_pretrained env = Throws e ->
  let o := POST VECTOR_DIMENSION env p in
  response o = failure e
  /\ _processor (final o) = false
  /\ _model (final o) = _model p
  /\ loads (events o) = 1%nat
  /\ embeddings (events o) = 0%nat
  /\ inserted (events o) = [].
Proof.
  intros [Hs Hf Ht Htt Hl Hlt Hi Hu] Hurl Hp He. cbv zeta. unfold failure.
  open_handler. cbn. rewrite Hs. cbn. rewrite Hf. cbn.
  rewrite Ht, Htt, Hl, Hlt, Hi. cbn. rewrite Hu. cbn. rewrite Hurl. cbn.
  destruct p as [st pr mo]. cbn in Hp. subst pr. cbn. rewrite He. cbn.
  destruct (JsString.truthy (env_uuidv4 env)); cbn; repeat split; reflexivity.
Qed.

Lemma underscore_is_not_space : JsString.is_space (N_of_ascii "_") = false.
Proof. reflexivity. Qed.

(** Replacing white space leaves none, and keeps the length. *)
Lemma replace_spaces_spaceless (s : list N) :
  forallb (fun c => negb (JsString.is_space c)) (JsString.replace_spaces s)
  = true
  /\ length (JsString.replace_spaces s) = length s.
Proof.
  unfold JsString.replace_spaces. split; [| apply length_map].
  induction s as [| c r IH]; [reflexivity |].
  cbn [map forallb]. rewrite IH, andb_true_r.
  destruct (JsString.is_space c) eqn:Hc; [reflexivity | now rewrite Hc].
Qed.

(** X8: a request uploads nothing, or exactly one object: the bytes of the
    file in the form's [image] field, into the bucket [item-images], under
    the item's identifier, a hyphen, and that file's name with every
    white-space character replaced by an underscore. *)
Theorem stored_object_is_named_after_the_item p :
  let o := POST VECTOR_DIMENSION env p in
  uploads (events o) = []
  \/ exists fd image,
       env_formData env = Normal fd
       /\ formData_get (js "image") fd = Some (EntryFile image)
       /\ uploads (events o) =
            [(js "item-images",
              env_uuidv4 env ++ js "-"
              ++ map (fun c => if JsString.is_space c then N_of_ascii "_"
                               else c) (file_name image),
              file_bytes image)].
Proof.
  cbv zeta. open_handler. destruct p as [st pr mo].
  explore.
  all: cbn.
  all: first [ left; reflexivity | right ].
  all: eexists _, _; split; [reflexivity | split; [eassumption | reflexivity]].
Qed.

(** X13: every request submits at most three rows, all of them the same
    row, and waits 0, 2 or 6 seconds in total between them. *)
Theorem retries_are_bounded p :
  let o := POST VECTOR_DIMENSION env p in
  (exists item n, (n <= 3)%nat /\ inserted (events o) = replicate n item)
  /\ (total_wait (events o) = 0 \/ total_wait (events o) = 2000
      \/ total_wait (events o) = 6000).
Proof.
  cbv zeta. open_handler. destruct p as [st pr mo].
  explore.
  all: cbn; split;
    [ first [ exists (row env Sample.session [] (EntryString [])
                        (EntryString []) []), 0%nat;
              split; [lia | reflexivity]
            | eexists _, 1%nat; split; [lia | reflexivity]
            | eexists _, 2%nat; split; [lia | reflexivity]
            | eexists _, 3%nat; split; [lia | reflexivity] ]
    | auto ].
Qed.

(** X7: a non-empty text value in the image field passes the
    required-fields check, but the request then fails with 500 before
    anything is uploaded, loaded or inserted, and its status ends as
    [error]. *)
Theorem text_in_image_field_fails_before_upload p sess fd title location s :
  Validated env sess fd title location (EntryString s) ->
  let o := POST VECTOR_DIMENSION env p in
  status_of o = Some 500
  /\ uploads (events o) = []
  /\ loads (events o) = 0%nat
  /\ inserted (events o) = []
  /\ (JsString.truthy (env_uuidv4 env) = true ->
      status <$> processingStatus (final o) !! env_uuidv4 env = Some error).
Proof.
  intros H. cbv zeta. unfold status_of. enter_validated H.
  destruct (JsString.truthy (env_uuidv4 env)); cbn; repeat split;
    try reflexivity; try discriminate.
  intros _. now rewrite lookup_insert_eq.
Qed.


(** A request that computes an embedding leaves both handles loaded. *)
Lemma embedding_loads_handles p sess fd title location image vector :
  Embedded env p sess fd title location image vector ->
  _processor (final (POST VECTOR_DIMENSION env p)) = true
  /\ _model (final (POST VECTOR_DIMENSION env p)) = true.
Proof.
  intros [[Hs Hf Ht Htt Hl Hlt Hi Hu] Hurl Hp Hm [rest Hv]].
  open_handler. cbn. rewrite Hs. cbn. rewrite Hf. cbn.
  rewrite Ht, Htt, Hl, Hlt, Hi. cbn. rewrite Hu. cbn. rewrite Hurl. cbn.
  destruct p as [st [|] [|]]; cbn in *.
  all: rewrite ?Hp, ?Hm by reflexivity; cbn; rewrite Hv.
  all: explore; cbn; split; reflexivity.
Qed.

(** X12: when attempts before the [k]-th fail and the [k]-th succeeds
    ([k] from 1 to 3), the request is answered 200 after exactly [k]
    inserts with the waits of the schedule between them, and its status is
    [complete]. *)
Theorem first_success_ends_the_loop p sess fd title location image vector
    (errs : nat -> JsThrown) (k : nat) :
  Embedded env p sess fd title location image vector ->
  length vector = VECTOR_DIMENSION ->
  (1 <= k <= 3)%nat ->
  (forall j, (1 <= j < k)%nat -> env_insert env j = Throws (errs j)) ->
  env_insert env k = Normal tt ->
  let o := POST VECTOR_DIMENSION env p in
  status_of o = Some 200
  /\ persistence (events o)
     = schedule (row env sess fd title location vector) (k - 1)
  /\ status <$> processingStatus (final o) !! env_uuidv4 env = Some complete.
Proof.
  intros H Hlen Hk Hfail Hok. cbv zeta. unfold status_of.
  rewrite POST_unfold. unfold try_catch.
  rewrite (reaches_retry_loop _ _ _ _ _ _ _ _ _ H Hlen).
  unfold insert_with_retry, insert_attempt, try_catch, bind, before_insert,
    loading.
  assert (k = 1 \/ k = 2 \/ k = 3)%nat as [-> | [-> | ->]] by lia.
  - cbn -[catch_block]. rewrite Hok. cbn.
    split; [reflexivity | split; [| now rewrite lookup_insert_eq]].
    destruct p as [st [|] [|]]; reflexivity.
  - cbn -[catch_block]. rewrite (Hfail 1%nat) by lia. rewrite Hok.
    destruct (is_rls_violation (errs 1%nat)); cbn.
    all: split; [reflexivity | split; [| now rewrite lookup_insert_eq]].
    all: destruct p as [st [|] [|]]; reflexivity.
  - cbn -[catch_block]. rewrite (Hfail 1%nat), (Hfail 2%nat) by lia.
    rewrite Hok.
    destruct (is_rls_violation (errs 1%nat)), (is_rls_violation (errs 2%nat));
      cbn.
    all: split; [reflexivity | split; [| now rewrite lookup_insert_eq]].
    all: destruct p as [st [|] [|]]; reflexivity.
Qed.

End Paths.

(** X11: after a request that got as far as computing an embedding, the
    next request in the same process loads neither processor nor model. *)
Theorem second_request_loads_nothing (VECTOR_DIMENSION : nat) (env next : Env)
    p sess fd title location image vector :
  Embedded env p sess fd title location image vector ->
  loads (events (POST VECTOR_DIMENSION next
                   (final (POST VECTOR_DIMENSION env p)))) = 0%nat.
Proof.
  intros H.
  destruct (embedding_loads_handles VECTOR_DIMENSION env _ _ _ _ _ _ _ H)
    as [Hp Hm].
  now apply (handles_are_kept VECTOR_DIMENSION next).
Qed.

(** ** These properties on concrete requests *)

Lemma sample_validated (image : FormDataEntryValue) :
  truthy (Some image) = true ->
  Validated (Cases.with_form (Sample.form (Some image)) Cases.base)
    Sample.session (Sample.form (Some image))
    (EntryString (js "Keys")) (EntryString (js "Library")) image.
Proof. intros Himage. constructor; try reflexivity. exact Himage. Qed.

(** X2 on a session lookup that is rejected. *)
Lemma session_rejection_is_500_witness :
  POST 3 (Cases.with_session (Throws Cases.network_down) Cases.base)
    Sample.fresh
  = {| response := failure Cases.network_down;
       final := Sample.fresh;
       events := [Console console_log LogUploadApiCalled;
                  GetSession;
                  Console console_error
                    (LogUnhandledError Cases.network_down)] |}.
Proof.
  exact (session_rejection_is_500 3
           (Cases.with_session (Throws Cases.network_down) Cases.base)
           Sample.fresh Cases.network_down eq_refl).
Defined.

(** X3 on the sample form, which is complete. *)
Lemma validation_is_presence_check_witness :
  status_of (POST 3 Cases.base Sample.fresh) = Some 400
  <-> (truthy (formData_get (js "title") (Sample.form (Some Sample.one_byte)))
       = false
       \/ truthy (formData_get (js "location")
                    (Sample.form (Some Sample.one_byte))) = false
       \/ truthy (formData_get (js "image")
                    (Sample.form (Some Sample.one_byte))) = false).
Proof.
  exact (validation_is_presence_check 3 Cases.base Sample.fresh Sample.session
           (Sample.form (Some Sample.one_byte)) eq_refl eq_refl).
Defined.

(** X4 on an entry of another item. *)
Lemma other_status_entries_are_untouched_witness :
  processingStatus (final (POST 3 Cases.base Sample.fresh)) !! js "77aa"
  = processingStatus Sample.fresh !! js "77aa".
Proof.
  apply (other_status_entries_are_untouched 3 Cases.base Sample.fresh).
  vm_compute. discriminate.
Defined.

(** X5 on the sample request, which ends complete. *)
Lemma status_entry_is_terminal_witness :
  status <$> processingStatus (final (POST 3 Cases.base Sample.fresh))
               !! js "0b5e"
  = Some complete.
Proof.
  destruct (status_entry_is_terminal 3 Cases.base Sample.fresh eq_refl)
    as [[_ [H | [H | H]]] | [[[t Ht] _] | [_ H]]];
    try (vm_compute in H; discriminate H).
  change (js "0b5e") with (env_uuidv4 Cases.base). now rewrite Ht.
Defined.

(** X6 on a store that has no such bucket. *)
Lemma upload_error_is_not_retried_witness :
  let o := POST 3 (Cases.with_upload (Normal (Some Cases.bucket_missing))
                     Cases.base) Sample.fresh in
  status_of o = Some 500
  /\ length (uploads (events o)) = 1%nat
  /\ inserted (events o) = [].
Proof.
  destruct (upload_error_is_not_retried 3
              (Cases.with_upload (Normal (Some Cases.bucket_missing))
                 Cases.base)
              Sample.fresh Sample.session (Sample.form (Some Sample.one_byte))
              (EntryString (js "Keys")) (EntryString (js "Library"))
              (Sample.photo [x01]) Cases.bucket_missing
              ltac:(constructor; reflexivity) eq_refl)
    as (Hr & Hu & _ & _ & Hi & _).
  cbv zeta. unfold status_of. rewrite Hr, Hu, Hi. repeat split.
Defined.

(** X7 on a form whose image field holds a file name as text. *)
Lemma text_in_image_field_fails_before_upload_witness :
  let o := POST 3 (Cases.with_form (Sample.form (Some Cases.text_image))
                     Cases.base) Sample.fresh in
  status_of o = Some 500 /\ uploads (events o) = [].
Proof.
  destruct (text_in_image_field_fails_before_upload 3
              (Cases.with_form (Sample.form (Some Cases.text_image))
                 Cases.base)
              Sample.fresh Sample.session
              (Sample.form (Some Cases.text_image))
              (EntryString (js "Keys")) (EntryString (js "Library"))
              (js "photo.png") (sample_validated Cases.text_image eq_refl))
    as (Hs & Hu & _).
  now split.
Defined.

(** X8 on the sample request, whose file is named [my keys.png]: its one
    upload. *)
Lemma stored_object_is_named_after_the_item_witness :
  uploads (events (POST 3 Cases.base Sample.fresh))
  = [(js "item-images", js "0b5e-my_keys.png", [x01])].
Proof.
  destruct (stored_object_is_named_after_the_item 3 Cases.base Sample.fresh)
    as [Hnone | (fd & image & Hfd & Himage & Hup)].
  - vm_compute in Hnone. discriminate Hnone.
  - injection Hfd as <-. vm_compute in Himage. injection Himage as <-.
    rewrite Hup. reflexivity.
Defined.

(** X9 on a process with both handles loaded. *)
Lemma loaded_handles_are_reused_witness :
  loads (events (POST 3 Cases.base Cases.loaded)) = 0%nat.
Proof.
  exact (proj1 (loaded_handles_are_reused 3 Cases.base Cases.loaded
                  eq_refl eq_refl)).
Defined.

(** X10 on a processor that cannot be loaded. *)
Lemma failed_load_is_not_remembered_witness :
  let o := POST 3 (Cases.with_processor (Throws Cases.out_of_memory)
                     Cases.base) Sample.fresh in
  response o = failure Cases.out_of_memory
  /\ _processor (final o) = false.
Proof.
  destruct (failed_load_is_not_remembered 3
              (Cases.with_processor (Throws Cases.out_of_memory) Cases.base)
              Sample.fresh Sample.session (Sample.form (Some Sample.one_byte))
              (EntryString (js "Keys")) (EntryString (js "Library"))
              (Sample.photo [x01]) Cases.out_of_memory
              ltac:(constructor; reflexivity) eq_refl eq_refl eq_refl)
    as (Hr & Hp & _).
  now split.
Defined.

(** X11 on two sample requests in a row. *)
Lemma second_request_loads_nothing_witness :
  loads (events (POST 3 Cases.base
                   (final (POST 3 Cases.base Sample.fresh)))) = 0%nat.
Proof.
  exact (second_request_loads_nothing 3 Cases.base Cases.base Sample.fresh
           _ _ _ _ _ _ (sample_embedded Sample.fails_twice)).
Defined.

(** X12 on a database that accepts the second attempt. *)
Lemma first_success_ends_the_loop_witness :
  let o := POST 3 (Sample.ready (succeeds_at 2 Sample.timeout_error))
             Sample.fresh in
  status_of o = Some 200 /\ sleeps (events o) = [2000].
Proof.
  destruct (first_success_ends_the_loop 3
              (Sample.ready (succeeds_at 2 Sample.timeout_error)) Sample.fresh
              _ _ _ _ _ _ (fun _ => Sample.timeout_error) 2
              (sample_embedded _) eq_refl ltac:(lia)
              ltac:(intros j Hj; assert (j = 1)%nat as -> by lia; reflexivity)
              eq_refl)
    as (Hs & _).
  split; [exact Hs | reflexivity].
Defined.

End UploadMore.

(** * More properties of the main page *)

Module PageProps.

Import MainPage Page.

#[local] Arguments JsString.lit : simpl never.
#[local] Arguments JsString.of_nat : simpl never.
#[local] Arguments JsString.trim : simpl never.

(** A string with a visible character survives [trim()]. *)
Lemma visible_survives_trim (s : list N) :
  forallb JsString.is_space s = false ->
  JsString.truthy (JsString.trim s) = true.
Proof.
  intros Hvisible. destruct (JsString.trim s) eqn:Htrim; [| reflexivity].
  apply MainPageProps.trim_blank_iff in Htrim. congruence.
Qed.

Lemma blank_trims_to_nothing (s : list N) :
  forallb JsString.is_space s = true ->
  JsString.truthy (JsString.trim s) = false.
Proof.
  intros Hblank. apply MainPageProps.trim_blank_iff in Hblank.
  now rewrite Hblank.
Qed.

(** A list ends with [suffix] when its reversal starts with the reversed
    suffix. *)
Lemma ends_by_reverse {A} (l suffix : list A) :
  firstn (length suffix) (rev l) = rev suffix ->
  exists before, l = before ++ suffix.
Proof.
  intros H. exists (rev (skipn (length suffix) (rev l))).
  rewrite <- (rev_involutive l) at 1.
  rewrite <- (firstn_skipn (length suffix) (rev l)) at 1.
  now rewrite H, rev_app_distr, rev_involutive.
Qed.

(** Split on what the handler looks at next. *)
Ltac cases :=
  repeat (cbn;
    match goal with
    | |- context [match ?x with _ => _ end] =>
        lazymatch x with
        | context [match _ with _ => _ end] => fail
        | _ => destruct x eqn:?
        end
    end).

Section Submit.

Variable parse_upload : jsstring -> option (option jsstring).
Variable fetch_upload : Upload.FormData -> Settled TextReply.

(** X14: without an image, or with a title or a location that is empty or
    white space only, the submission stops at an alert: no request is made
    and no state is set. *)
Theorem submit_needs_image_title_location (st : State) :
  imageFile st = None
  \/ forallb JsString.is_space (title st) = true
  \/ forallb JsString.is_space (location st) = true ->
  let acts := handleSubmit parse_upload fetch_upload st in
  requests acts = []
  /\ statuses acts = []
  /\ exists m, acts = [PreventDefault; Alert m].
Proof.
  intros Hmissing. cbv zeta. unfold handleSubmit.
  destruct (imageFile st) as [file|]; [| repeat split; eauto].
  destruct (forallb JsString.is_space (title st)) eqn:Ht.
  - rewrite (blank_trims_to_nothing _ Ht). repeat split; eauto.
  - rewrite (visible_survives_trim _ Ht).
    destruct (forallb JsString.is_space (location st)) eqn:Hl.
    + rewrite (blank_trims_to_nothing _ Hl). repeat split; eauto.
    + destruct Hmissing as [H | [H | H]]; discriminate H.
Qed.

Ltac enter_submit Hfile Ht Hl :=
  cbv zeta; unfold handleSubmit; rewrite Hfile;
  rewrite (visible_survives_trim _ Ht), (visible_survives_trim _ Hl);
  unfold try_catch_finally, submit_try, submit_catch, bind, await, emit,
    update, emit, raise, pure.

(** What a submission that passes the three checks does. *)
Lemma submit_runs (st : State) (file : Upload.File) :
  imageFile st = Some file ->
  forallb JsString.is_space (title st) = false ->
  forallb JsString.is_space (location st) = false ->
  let acts := handleSubmit parse_upload fetch_upload st in
  posted acts = [upload_form st file]
  /\ requests acts = [FetchUpload (upload_form st file)]
  /\ last acts = Some (Update (SetUploading false))
  /\ (statuses acts = [upload_uploading; upload_complete]
      /\ List.filter clears_form acts
         = [Update (SetTitle []); Update (SetDescription []);
            Update (SetLocation []); Update (SetImageFile None);
            Update (SetImagePreview None)]
      \/ statuses acts = [upload_uploading; upload_error]
         /\ List.filter clears_form acts = []).
Proof.
  intros Hfile Ht Hl. enter_submit Hfile Ht Hl.
  cases.
  all: cbn; repeat split; auto.
Qed.


(** X16: such a submission ends in [complete] with title, description,
    location, image and preview cleared, or in [error] with none of them
    touched: what the user typed is lost only on success. *)
Theorem form_is_cleared_only_on_success (st : State) (file : Upload.File) :
  imageFile st = Some file ->
  forallb JsString.is_space (title st) = false ->
  forallb JsString.is_space (location st) = false ->
  let acts := handleSubmit parse_upload fetch_upload st in
  statuses acts = [upload_uploading; upload_complete]
  /\ List.filter clears_form acts
     = [Update (SetTitle []); Update (SetDescription []);
        Update (SetLocation []); Update (SetImageFile None);
        Update (SetImagePreview None)]
  \/ statuses acts = [upload_uploading; upload_error]
     /\ List.filter clears_form acts = [].
Proof.
  intros Hfile Ht Hl.
  now destruct (submit_runs st file Hfile Ht Hl) as (_ & _ & _ & H).
Qed.

End Submit.

Section Searches.

Variable Number : jsstring -> float.
Variable fetch : SearchRequest -> jsstring + FetchResponse.
Variable fetch_search : ImageSearchForm -> Settled FetchResponse.

(** X18: a text search with a visible query always ends by lowering the
    loading flag.  With a custom result count that is invalid it makes no
    request and leaves the progress at [searching]; otherwise it makes
    exactly one request and the progress ends at [complete] or [error]. *)
Theorem text_search_settles_unless_custom_is_invalid (c : Component) :
  forallb JsString.is_space (searchQuery c) = false ->
  let acts := handleTextSearch Number fetch c in
  last acts = Some (MainPage.SetLoading false)
  /\ if JsString.eqb (maxResults c) (js "custom")
        && custom_invalid Number (customMaxResults c)
     then List.filter is_fetch acts = [] /\ text_progress acts = [searching]
     else length (List.filter is_fetch acts) = 1%nat
          /\ (text_progress acts = [searching; complete]
              \/ text_progress acts = [searching; error]).
Proof.
  intros Hq. cbv zeta. unfold handleTextSearch.
  rewrite (visible_survives_trim _ Hq). unfold search_try, search_catch.
  destruct (JsString.eqb (maxResults c) (js "custom")
            && custom_invalid Number (customMaxResults c)) eqn:Hc; cbn.
  - repeat split; reflexivity.
  - cases; cbn; repeat split; auto.
Qed.

(** X19: without a search image the image search does nothing at all.
    With one it always ends by lowering both loading flags; with an invalid
    custom result count it makes no request and leaves the progress at
    [searching], otherwise it posts one form carrying the image and the
    threshold, and the progress ends at [complete] or [error]. *)
Theorem image_search_settles_unless_custom_is_invalid (st : State) :
  let acts := handleImageSearch Number fetch_search st in
  match searchImage st with
  | None => acts = []
  | Some image =>
      (exists before,
         acts = before ++ [Update (SetSearchLoading false);
                           Update (SetLoading false)])
      /\ if JsString.eqb (maxResults (search st)) (js "custom")
            && custom_invalid Number (customMaxResults (search st))
         then requests acts = [] /\ progress acts = [searching]
         else (exists maxResults_sent,
                 searched acts
                 = [{| form_image := image;
                       form_threshold := Some (similarityThreshold (search st));
                       form_maxResults := Some maxResults_sent |}])
              /\ (progress acts = [searching; complete]
                  \/ progress acts = [searching; error])
  end.
Proof.
  cbv zeta. unfold handleImageSearch.
  destruct (searchImage st) as [image|]; [| reflexivity].
  unfold try_catch_finally, image_search_try, image_search_catch, search_json,
    bind, await, emit, update, emit, raise, pure, leave.
  destruct (JsString.eqb (maxResults (search st)) (js "custom")
            && custom_invalid Number (customMaxResults (search st))) eqn:Hc.
  - cbn. split; [| split; reflexivity].
    apply ends_by_reverse. reflexivity.
  - cases.
    all: cbn; split; [| split; eauto].
    all: apply ends_by_reverse; reflexivity.
Qed.

End Searches.

Section Similar.

Variable fetch_url : jsstring -> Settled BlobReply.
Variable Date_now : N.
Variable fetch_similar : ImageSearchForm -> Settled TextReply.
Variable parse_items : jsstring -> ParsedItems.

(** X20: searching with an existing item always ends by lowering the
    loading flag and never leaves the progress at [searching]; its first
    request fetches the image, and the search endpoint is only called when
    that fetch succeeded, with a form holding the fetched bytes and neither
    threshold nor result count. *)
Theorem similar_search_fetches_the_image_first (st : State)
    (url name : jsstring) :
  let acts :=
    handleSearchWithItem fetch_url Date_now fetch_similar parse_items
      st url name in
  last acts = Some (Update (SetLoading false))
  /\ head (requests acts) = Some (FetchUrl url)
  /\ (progress acts = [searching; complete]
      \/ progress acts = [searching; error])
  /\ forall form,
       form ∈ searched acts ->
       exists reply bytes,
         fetch_url url = Fulfilled reply
         /\ blob_ok reply = true
         /\ blob_bytes reply = Fulfilled bytes
         /\ Upload.file_bytes (form_image form) = bytes
         /\ form_threshold form = None
         /\ form_maxResults form = None.
Proof.
  cbv zeta. unfold handleSearchWithItem, try_catch_finally, similar_try,
    similar_catch, bind, await, emit, update, emit, raise, pure, leave.
  cases.
  all: cbn; repeat split; auto.
  all: intros form Hin.
  all: try (apply elem_of_nil in Hin; contradiction).
  all: apply list_elem_of_singleton in Hin; subst form; cbn.
  all: eexists _, _; repeat split; eauto.
  all: match goal with
       | H : negb ?b = false |- ?b = true => now apply negb_false_iff in H
       end.
Qed.

(** X21: the one failure of that search which raises no alert is an
    accepted reply with an empty body. *)
Theorem empty_reply_is_the_silent_failure (st : State) (url name : jsstring) :
  let acts :=
    handleSearchWithItem fetch_url Date_now fetch_similar parse_items
      st url name in
  progress acts = [searching; error] ->
  existsb is_alert acts = false ->
  exists form reply,
    form ∈ searched acts
    /\ fetch_similar form = Fulfilled reply
    /\ reply_ok reply = true
    /\ reply_text reply = Fulfilled [].
Proof.
  cbv zeta. unfold handleSearchWithItem, try_catch_finally, similar_try,
    similar_catch, bind, await, emit, update, emit, raise, pure, leave.
  cases.
  all: cbn; intros Hp Ha; try discriminate.
  all: eexists _, _; split; [apply list_elem_of_singleton; reflexivity |].
  all: repeat split; eauto.
  all: try match goal with
           | H : negb ?b = false |- ?b = true => now apply negb_false_iff in H
           end.
  all: match goal with
       | H : negb (JsString.truthy ?t) = true, E : _ = Fulfilled ?t |- _ =>
           destruct t; [exact E | discriminate H]
       end.
Qed.

End Similar.

Section Delete.

Variable confirm : bool.
Variable fetch_delete : jsstring -> option jsstring -> Settled DeleteReply.

(** What [filter] keeps. *)
Lemma without_spec (key : list N) (l : list Item) (i : Item) :
  i ∈ without key l <-> i ∈ l /\ id i <> key.
Proof.
  unfold without. rewrite !list_elem_of_In, List.filter_In.
  unfold JsString.eqb. rewrite negb_true_iff, bool_decide_eq_false.
  reflexivity.
Qed.

(** X22: the item list is only ever replaced after a confirmed delete
    request that the server accepted, and then by the list without the
    items of that identifier: every other item stays. *)
Theorem delete_removes_exactly_that_item (st : State) (item : Item) :
  let acts := handleDeleteItem confirm fetch_delete st item in
  forall kept,
    kept ∈ stored_items acts ->
    (forall i, i ∈ kept <-> i ∈ items st /\ id i <> id item)
    /\ confirm = true
    /\ exists image rest reply,
         item_images item = image :: rest
         /\ fetch_delete (id item) (last_segment (image_url image))
            = Fulfilled reply
         /\ delete_ok reply = true.
Proof.
  cbv zeta. unfold handleDeleteItem, try_catch_finally, delete_try,
    delete_catch, bind, await, emit, update, emit, raise, pure.
  cases.
  all: cbn; intros kept Hin.
  all: try (apply elem_of_nil in Hin; contradiction).
  all: apply list_elem_of_singleton in Hin; subst kept.
  all: split; [intros x; apply without_spec |].
  all: split; [now destruct confirm |].
  all: eexists _, _, _; repeat split; eauto.
  all: match goal with
       | H : negb ?b = false |- ?b = true => now apply negb_false_iff in H
       end.
Qed.

(** X23: a delete that is not confirmed, or of an item without an image,
    makes no request and leaves the item list alone; if it was confirmed
    the deleting flag is lowered at the end. *)
Theorem delete_needs_confirmation_and_an_image (st : State) (item : Item) :
  confirm = false \/ item_images item = [] ->
  let acts := handleDeleteItem confirm fetch_delete st item in
  requests acts = []
  /\ stored_items acts = []
  /\ (confirm = true -> last acts = Some (Update (SetDeleting false))).
Proof.
  cbv zeta. unfold handleDeleteItem, try_catch_finally, delete_try,
    delete_catch, bind, await, emit, update, emit, raise, pure.
  intros [Hc | Hi].
  - rewrite Hc. cbn. repeat split. discriminate.
  - rewrite Hi. destruct confirm; cbn; repeat split; discriminate.
Qed.

End Delete.

(** Splitting never yields an empty list of pieces. *)
Lemma split_on_cons (sep : N) (s : list N) :
  exists piece pieces, split_on sep s = piece :: pieces.
Proof.
  induction s as [| c r (piece & pieces & IH)]; [now exists [], [] |].
  cbn. rewrite IH. destruct (N.eqb c sep); eauto.
Qed.

(** A text without the separator is a single piece. *)
Lemma split_on_whole (sep : N) (s : list N) :
  sep ∉ s -> split_on sep s = [s].
Proof.
  induction s as [| c r IH]; [reflexivity |].
  intros Hnot. apply not_elem_of_cons in Hnot as [Hc Hr].
  cbn. rewrite (IH Hr).
  destruct (N.eqb_spec c sep); [congruence | reflexivity].
Qed.

(** The pieces of [a ++ sep :: b] are those of [a] followed by those of
    [b]. *)
Lemma split_on_app (sep : N) (a b : list N) :
  split_on sep (a ++ sep :: b) = split_on sep a ++ split_on sep b.
Proof.
  induction a as [| c r IH]; cbn.
  - now rewrite N.eqb_refl.
  - rewrite IH. destruct (N.eqb c sep); [reflexivity |].
    destruct (split_on_cons sep r) as (piece & pieces & ->). reflexivity.
Qed.

(** The last piece after a slash, when the rest has none. *)
Lemma last_segment_after_slash (base name : list N) :
  slash ∉ name -> last_segment (base ++ slash :: name) = Some name.
Proof.
  intros Hname. unfold last_segment.
  rewrite split_on_app, (split_on_whole _ _ Hname). apply last_snoc.
Qed.

(** X24: [url.split('/').pop()] is what follows the last slash, and the
    whole text when there is no slash. *)
Theorem last_segment_is_the_file_name (base name : list N) :
  slash ∉ name ->
  last_segment (base ++ slash :: name) = Some name
  /\ last_segment name = Some name.
Proof.
  intros Hname. split; [now apply last_segment_after_slash |].
  unfold last_segment. now rewrite (split_on_whole _ _ Hname).
Qed.

(** ** These properties on concrete page states *)

(** X14 on a title of two spaces. *)
Lemma submit_needs_image_title_location_witness :
  requests (handleSubmit Sample.parse_object Sample.accepted Sample.untitled)
  = [].
Proof.
  exact (proj1 (submit_needs_image_title_location Sample.parse_object
                  Sample.accepted Sample.untitled
                  (or_intror (or_introl eq_refl)))).
Defined.


(** X16 on the same form, once accepted and once not. *)
Lemma form_is_cleared_only_on_success_witness :
  List.filter clears_form
    (handleSubmit Sample.parse_none Sample.offline Sample.filled) = []
  /\ length (List.filter clears_form
               (handleSubmit Sample.parse_object Sample.accepted
                  Sample.filled)) = 5%nat.
Proof.
  split.
  - destruct (form_is_cleared_only_on_success Sample.parse_none
                Sample.offline Sample.filled Sample.photo
                eq_refl eq_refl eq_refl) as [[H _] | [_ H]];
      [discriminate H | exact H].
  - destruct (form_is_cleared_only_on_success Sample.parse_object
                Sample.accepted Sample.filled Sample.photo
                eq_refl eq_refl eq_refl) as [[_ H] | [H _]];
      [now rewrite H | discriminate H].
Defined.

(** X18 on a query with text and an unreachable server. *)
Lemma text_search_settles_unless_custom_is_invalid_witness :
  last (handleTextSearch MainPage.Sample.Number MainPage.Sample.unreachable
          MainPage.Sample.keys)
  = Some (MainPage.SetLoading false).
Proof.
  exact (proj1 (text_search_settles_unless_custom_is_invalid
                  MainPage.Sample.Number MainPage.Sample.unreachable
                  MainPage.Sample.keys eq_refl)).
Defined.

(** X20 on an image that can be fetched. *)
Lemma similar_search_fetches_the_image_first_witness :
  exists reply bytes,
    Sample.found_image (js "https://cdn.example.org/a.png") = Fulfilled reply
    /\ blob_ok reply = true
    /\ blob_bytes reply = Fulfilled bytes
    /\ bytes = [x01].
Proof.
  destruct (proj2 (proj2 (proj2
              (similar_search_fetches_the_image_first Sample.found_image 7
                 Sample.empty_reply Sample.parse_empty Sample.listing
                 (js "https://cdn.example.org/a.png") (js "Keys"))))
              {| form_image :=
                   {| Upload.file_name := js "search-7.jpg";
                      Upload.file_type := js "image/jpeg";
                      Upload.file_bytes := [x01] |};
                 form_threshold := None;
                 form_maxResults := None |}
              ltac:(vm_compute; constructor))
    as (reply & bytes & H1 & H2 & H3 & H4 & _).
  exists reply, bytes. repeat split; try assumption. now rewrite <- H4.
Defined.

(** X21 on a reply without a body. *)
Lemma empty_reply_is_the_silent_failure_witness :
  exists form reply,
    form ∈ searched
             (handleSearchWithItem Sample.found_image 7 Sample.empty_reply
                Sample.parse_empty Sample.listing
                (js "https://cdn.example.org/a.png") (js "Keys"))
    /\ Sample.empty_reply form = Fulfilled reply
    /\ reply_ok reply = true
    /\ reply_text reply = Fulfilled [].
Proof.
  exact (empty_reply_is_the_silent_failure Sample.found_image 7
           Sample.empty_reply Sample.parse_empty Sample.listing
           (js "https://cdn.example.org/a.png") (js "Keys") eq_refl eq_refl).
Defined.

(** X22 on a list in which the identifier occurs twice. *)
Lemma delete_removes_exactly_that_item_witness :
  Sample.item "c" [Sample.stored]
  ∈ [Sample.item "b" []; Sample.item "c" [Sample.stored]]
  <-> Sample.item "c" [Sample.stored] ∈ items Sample.listing
      /\ id (Sample.item "c" [Sample.stored]) <> js "a".
Proof.
  exact (proj1 (delete_removes_exactly_that_item true Sample.deleted
                  Sample.listing (Sample.item "a" [Sample.stored])
                  [Sample.item "b" []; Sample.item "c" [Sample.stored]]
                  ltac:(vm_compute; constructor))
           (Sample.item "c" [Sample.stored])).
Defined.

(** X23 on a delete that is not confirmed. *)
Lemma delete_needs_confirmation_and_an_image_witness :
  requests (handleDeleteItem false Sample.deleted Sample.listing
              (Sample.item "a" [Sample.stored])) = [].
Proof.
  exact (proj1 (delete_needs_confirmation_and_an_image false Sample.deleted
                  Sample.listing (Sample.item "a" [Sample.stored])
                  (or_introl eq_refl))).
Defined.

(** X24 on a storage URL. *)
Lemma last_segment_is_the_file_name_witness :
  last_segment (js "https://cdn.example.org/item-images/0b5e-my_keys.png")
  = Some (js "0b5e-my_keys.png").
Proof.
  exact (proj1 (last_segment_is_the_file_name
                  (js "https://cdn.example.org/item-images")
                  (js "0b5e-my_keys.png")
                  ltac:(refine (bool_decide_unpack _ _); vm_compute; exact I))).
Defined.

End PageProps.

(** * The page and the route together; the sign-in page *)

Module AcrossProps.

Import Page.

#[local] Arguments JsString.lit : simpl never.
#[local] Arguments JsString.of_nat : simpl never.
#[local] Arguments JsString.trim : simpl never.

(** A string with a visible character is not empty. *)
Lemma visible_is_truthy (s : list N) :
  forallb JsString.is_space s = false -> JsString.truthy s = true.
Proof. now destruct s. Qed.

(** X17: the page and the route agree on what a complete form is: a form
    that [handleSubmit] posts is never answered 400 by a signed-in [POST]
    that reads it. *)
Theorem submitted_form_passes_server_validation
    (parse_upload : jsstring -> option (option jsstring))
    (fetch_upload : Upload.FormData -> Settled TextReply)
    (st : State) (VECTOR_DIMENSION : nat) (env : Upload.Env)
    (p : Upload.Process) (sess : Upload.Session) (form : Upload.FormData) :
  form ∈ posted (handleSubmit parse_upload fetch_upload st) ->
  Upload.env_getSession env = Normal (Some sess, None) ->
  Upload.env_formData env = Normal form ->
  UploadTrace.status_of (Upload.POST VECTOR_DIMENSION env p) <> Some 400.
Proof.
  intros Hposted Hs Hf.
  destruct (imageFile st) as [file|] eqn:Hfile.
  2: { exfalso. revert Hposted. unfold handleSubmit. rewrite Hfile. cbn.
       apply elem_of_nil. }
  destruct (forallb JsString.is_space (title st)) eqn:Ht.
  { exfalso. revert Hposted. unfold handleSubmit. rewrite Hfile.
    rewrite (PageProps.blank_trims_to_nothing _ Ht). cbn. apply elem_of_nil. }
  destruct (forallb JsString.is_space (location st)) eqn:Hl.
  { exfalso. revert Hposted. unfold handleSubmit. rewrite Hfile.
    rewrite (PageProps.visible_survives_trim _ Ht),
      (PageProps.blank_trims_to_nothing _ Hl). cbn. apply elem_of_nil. }
  destruct (PageProps.submit_runs parse_upload fetch_upload
              st file Hfile Ht Hl) as (Hone & _).
  rewrite Hone in Hposted. apply list_elem_of_singleton in Hposted. subst form.
  apply (UploadMore.validated_is_not_400 VECTOR_DIMENSION env p sess
           (upload_form st file) (Upload.EntryString (title st))
           (Upload.EntryString (location st)) (Upload.EntryFile file)).
  constructor; try assumption; try reflexivity; cbn.
  - now apply visible_is_truthy.
  - now apply visible_is_truthy.
Qed.

(** The name under which the upload route stores an image has no slash
    when neither the identifier nor the file name has one. *)
Lemma stored_name_has_no_slash (env : Upload.Env) (image : Upload.File) :
  slash ∉ Upload.env_uuidv4 env ->
  slash ∉ Upload.file_name image ->
  slash ∉ Upload.stored_name env image.
Proof.
  intros Hid Hname. unfold Upload.stored_name.
  rewrite !not_elem_of_app. split; [exact Hid | split].
  - cbn. intros H. apply list_elem_of_singleton in H. discriminate H.
  - unfold JsString.replace_spaces. intros H.
    apply list_elem_of_fmap in H as (c & Hc & Hin).
    destruct (JsString.is_space c); [discriminate Hc |].
    subst c. contradiction.
Qed.

(** X25: for an image stored by the upload route under a URL that ends in
    a slash and the stored name, a confirmed delete asks for exactly that
    stored name (identifier and file name being free of slashes). *)
Theorem delete_names_the_stored_object
    (fetch_delete : jsstring -> option jsstring -> Settled DeleteReply)
    (st : State) (item : MainPage.Item) (env : Upload.Env)
    (image : Upload.File) (base : jsstring) (others : list MainPage.ItemImage) :
  slash ∉ Upload.env_uuidv4 env ->
  slash ∉ Upload.file_name image ->
  MainPage.item_images item
  = {| MainPage.image_url := base ++ slash :: Upload.stored_name env image |}
    :: others ->
  deletions (handleDeleteItem true fetch_delete st item)
  = [(MainPage.id item, Some (Upload.stored_name env image))].
Proof.
  intros Hid Hname Himages.
  pose proof (stored_name_has_no_slash env image Hid Hname) as Hstored.
  pose proof (PageProps.last_segment_after_slash base _ Hstored) as Hlast.
  unfold handleDeleteItem, try_catch_finally, delete_try, delete_catch, bind,
    await, emit, update, emit, raise, pure.
  rewrite Himages. cbn -[last_segment]. rewrite Hlast.
  destruct (fetch_delete _ _) as [reply|msg]; cbn; [| reflexivity].
  destruct (delete_json reply); cbn; [| reflexivity].
  destruct (delete_ok reply); reflexivity.
Qed.

(** X17 on the filled form. *)
Lemma submitted_form_passes_server_validation_witness :
  UploadTrace.status_of
    (Upload.POST 3
       (UploadTrace.Cases.with_form (upload_form Sample.filled Sample.photo)
          UploadTrace.Cases.base)
       Upload.Sample.fresh)
  <> Some 400.
Proof.
  exact (submitted_form_passes_server_validation Sample.parse_none
           Sample.offline Sample.filled 3
           (UploadTrace.Cases.with_form
              (upload_form Sample.filled Sample.photo) UploadTrace.Cases.base)
           Upload.Sample.fresh Upload.Sample.session
           (upload_form Sample.filled Sample.photo)
           ltac:(vm_compute; constructor) eq_refl eq_refl).
Defined.

(** X25 on the image the sample upload stored. *)
Lemma delete_names_the_stored_object_witness :
  deletions (handleDeleteItem true Sample.refused Sample.listing
               (Sample.item "a" [Sample.stored]))
  = [(js "a", Some (js "0b5e-my_keys.png"))].
Proof.
  exact (delete_names_the_stored_object Sample.refused Sample.listing
           (Sample.item "a" [Sample.stored]) UploadTrace.Cases.base
           (Upload.Sample.photo [x01])
           (js "https://cdn.example.org/item-images") []
           ltac:(refine (bool_decide_unpack _ _); vm_compute; exact I)
           ltac:(refine (bool_decide_unpack _ _); vm_compute; exact I)
           eq_refl).
Defined.

End AcrossProps.

Module SignInProps.

Import SignIn.

#[local] Arguments JsString.lit : simpl never.

(** X26: whatever the outcome of the sign-in, the handler ends by lowering
    the loading flag and replacing the route with [/]: also a successful
    sign-in, which first pushes [/main], ends on [/]. *)
Theorem sign_in_always_lands_on_the_root (email password from : jsstring)
    (result : Completion (option JsThrown)) :
  let acts := handleSignIn email password result in
  lands from acts = js "/"
  /\ loading_after true acts = false
  /\ exists before, acts = before ++ [SetLoading false; RouterReplace (js "/")].
Proof.
  cbv zeta. unfold handleSignIn.
  destruct (thrown result) as [e|]; cbn; repeat split.
  all: apply PageProps.ends_by_reverse; reflexivity.
Qed.


(** X28: the Google sign-in neither navigates nor touches the loading
    flag; it shows an error exactly when one was thrown. *)
Theorem google_sign_in_only_sets_the_error (origin from : jsstring)
    (result : Completion (option JsThrown)) (loading : bool) :
  let acts := handleGoogleSignIn origin result in
  lands from acts = from
  /\ loading_after loading acts = loading
  /\ error_shown None acts
     = (fun e => shown e (js "An error occurred")) <$> thrown result.
Proof.
  cbv zeta. unfold handleGoogleSignIn.
  destruct (thrown result) as [e|]; cbn; repeat split.
Qed.

End SignInProps.
